(** * WhisperLib.c: the JNI loaders, the transcriber and the segment accessors

    A shallow embedding of [nativelib/src/main/jni/whisper/WhisperLib.c].
    The C functions become functions in a state-and-crash monad over an
    explicit model of what the file touches: the native heap (calloc and
    free), the JNI reference tables, the Java arrays and strings handed
    across the boundary, the Android asset manager, the log, and the
    calls made into the whisper engine.

    Pointers, references and handles are integers with 0 for NULL, as in
    the C source.  An access through a freed block or a deleted reference
    is undefined behaviour in C; here it ends the run in [Crashes]. *)

From stdpp Require Import base gmap strings list.
From Stdlib Require Import ZArith Lia.

Open Scope Z_scope.

(** ** Machine integers *)

(** [(jint) z]: the low 32 bits, signed. *)
Definition to_jint (z : Z) : Z := (z + 2 ^ 31) `mod` 2 ^ 32 - 2 ^ 31.

(** [(size_t) z] on a 64-bit target. *)
Definition to_size_t (z : Z) : Z := z `mod` 2 ^ 64.

Definition JNI_OK : Z := 0.
Definition JNI_EDETACHED : Z := -2.
Definition JNI_ERR : Z := -1.
Definition JNI_TRUE : Z := 1.

(** ** Data *)

Definition byte := Byte.byte.

(** A [jfloat] is carried as its 32-bit pattern: the file only moves
    samples, it never computes with them. *)
Definition jfloat := Z.

(** [struct input_stream_context] *)
Record input_stream_context := mk_input_stream_context {
  jvm : Z;            (* JavaVM*                         *)
  input_stream : Z;   (* GlobalRef                       *)
  mid_read : Z;       (* int read(byte[], int, int)      *)
  buffer_gl : Z;      (* GlobalRef to byte[] buffer      *)
  buf_len : Z;        (* jint                            *)
  eof : Z;            (* int                             *)
}.

(** What [calloc(1, sizeof(struct input_stream_context))] yields. *)
Definition zeroed : input_stream_context :=
  mk_input_stream_context 0 0 0 0 0 0.

Definition set_jvm (v : Z) (c : input_stream_context) :=
  mk_input_stream_context v (input_stream c) (mid_read c) (buffer_gl c) (buf_len c) (eof c).
Definition set_input_stream (v : Z) (c : input_stream_context) :=
  mk_input_stream_context (jvm c) v (mid_read c) (buffer_gl c) (buf_len c) (eof c).
Definition set_mid_read (v : Z) (c : input_stream_context) :=
  mk_input_stream_context (jvm c) (input_stream c) v (buffer_gl c) (buf_len c) (eof c).
Definition set_buffer_gl (v : Z) (c : input_stream_context) :=
  mk_input_stream_context (jvm c) (input_stream c) (mid_read c) v (buf_len c) (eof c).
Definition set_buf_len (v : Z) (c : input_stream_context) :=
  mk_input_stream_context (jvm c) (input_stream c) (mid_read c) (buffer_gl c) v (eof c).
Definition set_eof (v : Z) (c : input_stream_context) :=
  mk_input_stream_context (jvm c) (input_stream c) (mid_read c) (buffer_gl c) (buf_len c) v.

(** The fields of [struct whisper_full_params] that the file assigns;
    [others] stands for the rest of the structure, which the file takes
    from [whisper_full_default_params] and never touches. *)
Record whisper_full_params := mk_whisper_full_params {
  n_threads : Z;
  translate : bool;
  no_context : bool;
  print_realtime : bool;
  print_progress : bool;
  print_timestamps : bool;
  print_special : bool;
  language : option string;
  detect_language : bool;
  others : Z;
}.

Definition set_n_threads (v : Z) (p : whisper_full_params) :=
  mk_whisper_full_params v (translate p) (no_context p) (print_realtime p)
    (print_progress p) (print_timestamps p) (print_special p) (language p)
    (detect_language p) (others p).
Definition set_translate (v : bool) (p : whisper_full_params) :=
  mk_whisper_full_params (n_threads p) v (no_context p) (print_realtime p)
    (print_progress p) (print_timestamps p) (print_special p) (language p)
    (detect_language p) (others p).
Definition set_no_context (v : bool) (p : whisper_full_params) :=
  mk_whisper_full_params (n_threads p) (translate p) v (print_realtime p)
    (print_progress p) (print_timestamps p) (print_special p) (language p)
    (detect_language p) (others p).
Definition set_print_realtime (v : bool) (p : whisper_full_params) :=
  mk_whisper_full_params (n_threads p) (translate p) (no_context p) v
    (print_progress p) (print_timestamps p) (print_special p) (language p)
    (detect_language p) (others p).
Definition set_print_progress (v : bool) (p : whisper_full_params) :=
  mk_whisper_full_params (n_threads p) (translate p) (no_context p) (print_realtime p)
    v (print_timestamps p) (print_special p) (language p)
    (detect_language p) (others p).
Definition set_print_timestamps (v : bool) (p : whisper_full_params) :=
  mk_whisper_full_params (n_threads p) (translate p) (no_context p) (print_realtime p)
    (print_progress p) v (print_special p) (language p)
    (detect_language p) (others p).
Definition set_print_special (v : bool) (p : whisper_full_params) :=
  mk_whisper_full_params (n_threads p) (translate p) (no_context p) (print_realtime p)
    (print_progress p) (print_timestamps p) v (language p)
    (detect_language p) (others p).
Definition set_language (v : option string) (p : whisper_full_params) :=
  mk_whisper_full_params (n_threads p) (translate p) (no_context p) (print_realtime p)
    (print_progress p) (print_timestamps p) (print_special p) v
    (detect_language p) (others p).
Definition set_detect_language (v : bool) (p : whisper_full_params) :=
  mk_whisper_full_params (n_threads p) (translate p) (no_context p) (print_realtime p)
    (print_progress p) (print_timestamps p) (print_special p) (language p)
    v (others p).

Inductive priority := ANDROID_LOG_INFO | ANDROID_LOG_WARN | ANDROID_LOG_ERROR.

(** One reply of the Java stream to [read(byte[], 0, len)]: it throws, or
    it stores [data] at the start of the array and returns [n]. *)
Inductive read_reply :=
  | Throws
  | Replies (n : Z) (data : list byte).

(** The calls that reach the whisper engine, in the order they are made. *)
Inductive engine_call :=
  | whisper_init_with_params_call (loader_context : Z)
  | whisper_init_from_file_with_params_call (path : string)
  | whisper_free_call (ctx : Z)
  | whisper_reset_timings_call (ctx : Z)
  | whisper_full_call (ctx : Z) (p : whisper_full_params) (samples : list jfloat) (n : Z)
  | whisper_print_timings_call (ctx : Z)
  | whisper_full_n_segments_call (ctx : Z)
  | whisper_full_get_segment_text_call (ctx : Z) (index : Z)
  | whisper_full_get_segment_t0_call (ctx : Z) (index : Z)
  | whisper_full_get_segment_t1_call (ctx : Z) (index : Z).

(** The calls made across the JNI boundary, in the order they are made. *)
Inductive jni_call :=
  | GetEnv_call
  | AttachCurrentThread_call
  | GetJavaVM_call
  | NewGlobalRef_call (obj : Z)
  | DeleteGlobalRef_call (ref : Z)
  | DeleteLocalRef_call (ref : Z)
  | GetObjectClass_call (obj : Z)
  | GetMethodID_call (cls : Z) (name sig : string)
  | NewByteArray_call (len : Z)
  | CallIntMethod_call (obj mid buf off len : Z)
  | ExceptionCheck_call
  | ExceptionDescribe_call
  | ExceptionClear_call
  | GetByteArrayElements_call (arr : Z)
  | ReleaseByteArrayElements_call (arr mode : Z)
  | GetFloatArrayElements_call (arr : Z)
  | GetArrayLength_call (arr : Z)
  | ReleaseFloatArrayElements_call (arr mode : Z)
  | GetStringUTFChars_call (str : string)
  | ReleaseStringUTFChars_call (str : string)
  | NewStringUTF_call (chars : string).

(** ** The state the file runs against *)

Record State := mk_State {
  heap : gmap Z input_stream_context;  (* live calloc blocks *)
  globals : gmap Z Z;  (* live JNI global references ↦ object *)
  locals : gset Z;  (* live JNI local references made here *)
  byte_arrays : gmap Z (list byte);  (* Java byte[] objects *)
  float_arrays : gmap Z (list jfloat);  (* Java float[] objects *)
  thread_env : Z;  (* JNIEnv* of this thread, 0: detached *)
  exception : bool;  (* a Java exception is pending *)
  stream : list read_reply;  (* what InputStream.read will answer *)
  assets : gmap Z (list byte);  (* open AAssets ↦ bytes still unread *)
  utf_chars : list string;  (* GetStringUTFChars buffers not released *)
  pinned : list Z;  (* Get<T>ArrayElements not yet released *)
  log : list (priority * string);  (* __android_log_print *)
  jni_calls : list jni_call;  (* calls made across the JNI boundary *)
  engine_calls : list engine_call;  (* calls made into whisper *)
}.

Definition with_heap (f : gmap Z input_stream_context → gmap Z input_stream_context) (s : State) : State :=
  mk_State
    (f (heap s)) (globals s) (locals s) (byte_arrays s) (float_arrays s)
    (thread_env s) (exception s) (stream s) (assets s) (utf_chars s)
    (pinned s) (log s) (jni_calls s) (engine_calls s).
Definition with_globals (f : gmap Z Z → gmap Z Z) (s : State) : State :=
  mk_State
    (heap s) (f (globals s)) (locals s) (byte_arrays s) (float_arrays s)
    (thread_env s) (exception s) (stream s) (assets s) (utf_chars s)
    (pinned s) (log s) (jni_calls s) (engine_calls s).
Definition with_locals (f : gset Z → gset Z) (s : State) : State :=
  mk_State
    (heap s) (globals s) (f (locals s)) (byte_arrays s) (float_arrays s)
    (thread_env s) (exception s) (stream s) (assets s) (utf_chars s)
    (pinned s) (log s) (jni_calls s) (engine_calls s).
Definition with_byte_arrays (f : gmap Z (list byte) → gmap Z (list byte)) (s : State) : State :=
  mk_State
    (heap s) (globals s) (locals s) (f (byte_arrays s)) (float_arrays s)
    (thread_env s) (exception s) (stream s) (assets s) (utf_chars s)
    (pinned s) (log s) (jni_calls s) (engine_calls s).
Definition with_float_arrays (f : gmap Z (list jfloat) → gmap Z (list jfloat)) (s : State) : State :=
  mk_State
    (heap s) (globals s) (locals s) (byte_arrays s) (f (float_arrays s))
    (thread_env s) (exception s) (stream s) (assets s) (utf_chars s)
    (pinned s) (log s) (jni_calls s) (engine_calls s).
Definition with_thread_env (f : Z → Z) (s : State) : State :=
  mk_State
    (heap s) (globals s) (locals s) (byte_arrays s) (float_arrays s) (f
    (thread_env s)) (exception s) (stream s) (assets s) (utf_chars s)
    (pinned s) (log s) (jni_calls s) (engine_calls s).
Definition with_exception (f : bool → bool) (s : State) : State :=
  mk_State
    (heap s) (globals s) (locals s) (byte_arrays s) (float_arrays s)
    (thread_env s) (f (exception s)) (stream s) (assets s) (utf_chars s)
    (pinned s) (log s) (jni_calls s) (engine_calls s).
Definition with_stream (f : list read_reply → list read_reply) (s : State) : State :=
  mk_State
    (heap s) (globals s) (locals s) (byte_arrays s) (float_arrays s)
    (thread_env s) (exception s) (f (stream s)) (assets s) (utf_chars s)
    (pinned s) (log s) (jni_calls s) (engine_calls s).
Definition with_assets (f : gmap Z (list byte) → gmap Z (list byte)) (s : State) : State :=
  mk_State
    (heap s) (globals s) (locals s) (byte_arrays s) (float_arrays s)
    (thread_env s) (exception s) (stream s) (f (assets s)) (utf_chars s)
    (pinned s) (log s) (jni_calls s) (engine_calls s).
Definition with_utf_chars (f : list string → list string) (s : State) : State :=
  mk_State
    (heap s) (globals s) (locals s) (byte_arrays s) (float_arrays s)
    (thread_env s) (exception s) (stream s) (assets s) (f (utf_chars s))
    (pinned s) (log s) (jni_calls s) (engine_calls s).
Definition with_pinned (f : list Z → list Z) (s : State) : State :=
  mk_State
    (heap s) (globals s) (locals s) (byte_arrays s) (float_arrays s)
    (thread_env s) (exception s) (stream s) (assets s) (utf_chars s) (f
    (pinned s)) (log s) (jni_calls s) (engine_calls s).
Definition with_log (f : list (priority * string) → list (priority * string)) (s : State) : State :=
  mk_State
    (heap s) (globals s) (locals s) (byte_arrays s) (float_arrays s)
    (thread_env s) (exception s) (stream s) (assets s) (utf_chars s)
    (pinned s) (f (log s)) (jni_calls s) (engine_calls s).
Definition with_jni_calls (f : list jni_call → list jni_call) (s : State) : State :=
  mk_State
    (heap s) (globals s) (locals s) (byte_arrays s) (float_arrays s)
    (thread_env s) (exception s) (stream s) (assets s) (utf_chars s)
    (pinned s) (log s) (f (jni_calls s)) (engine_calls s).
Definition with_engine_calls (f : list engine_call → list engine_call) (s : State) : State :=
  mk_State
    (heap s) (globals s) (locals s) (byte_arrays s) (float_arrays s)
    (thread_env s) (exception s) (stream s) (assets s) (utf_chars s)
    (pinned s) (log s) (jni_calls s) (f (engine_calls s)).

(** Every address and reference in use; NULL is never handed out. *)
Definition used (s : State) : gset Z :=
  {[0]} ∪ dom (heap s) ∪ dom (globals s) ∪ locals s ∪ dom (byte_arrays s)
        ∪ dom (float_arrays s) ∪ dom (assets s).

Definition new_handle (s : State) : Z := fresh (used s).

(** ** The monad: a state, or a crash *)

Inductive fault :=
  | UseAfterFree      (* access through a freed or foreign pointer          *)
  | InvalidFree       (* free or close of something that is not allocated   *)
  | StaleReference    (* JNI call on a reference that is not live           *)
  | InvalidMethod     (* CallIntMethod with a NULL method id                *)
  | OutOfBounds.      (* memcpy past the end of its source or destination   *)

Inductive outcome (A : Type) : Type :=
  | Returns (a : A) (s : State)
  | Crashes (f : fault).
Arguments Returns {A} a s.
Arguments Crashes {A} f.

Definition M (A : Type) : Type := State → outcome A.

Definition ret {A} (a : A) : M A := λ s, Returns a s.
Definition bind {A B} (m : M A) (k : A → M B) : M B :=
  λ s, match m s with
       | Returns a s' => k a s'
       | Crashes f => Crashes f
       end.
Definition crash {A} (f : fault) : M A := λ _, Crashes f.
Definition gets {A} (f : State → A) : M A := λ s, Returns (f s) s.
Definition modify (f : State → State) : M unit := λ s, Returns tt (f s).

Notation "'let*' x := m 'in' k" := (bind m (λ x, k))
  (at level 10, x pattern, m at level 100, k at level 200).
Notation "m >> k" := (bind m (λ _, k))
  (at level 90, right associativity).

(** The platform and the engine are outside this file.  Each of their
    answers that the source tests is a field here, so that a statement
    quantified over [Platform] covers every way those calls can go. *)
Record Platform := mk_Platform {
  calloc_ok : bool;                       (* calloc returns a block              *)
  java_vm : positive;                     (* the JavaVM* GetJavaVM stores        *)
  GetJavaVM_ok : bool;                    (* GetJavaVM returns 0                 *)
  AttachCurrentThread_env : Z;            (* env after attaching, 0: it fails    *)
  NewGlobalRef_ok : Z → bool;             (* by the object referred to           *)
  GetObjectClass_ok : bool;
  method_id : string → string → Z;        (* GetMethodID by name and signature   *)
  NewByteArray_ok : bool;
  GetByteArrayElements_ok : bool;
  GetFloatArrayElements_ok : bool;
  GetStringUTFChars_ok : bool;
  AAssetManager_fromJava_result : Z → Z;  (* the AAssetManager*, 0: none         *)
  asset_files : string → option (list byte); (* the entries AAssetManager_open finds *)
  AAsset_read_ok : bool;                  (* AAsset_read reads, or reports an error *)
  NewStringUTF_ok : bool;                 (* NewStringUTF builds the string      *)
}.

(** What the engine asks of a loader while it initialises from it. *)
Inductive loader_request :=
  | ask_read (read_size : Z)
  | ask_eof
  | ask_close.

Record Engine := mk_Engine {
  load_requests : list loader_request;   (* what whisper_init_with_params asks   *)
  load_result : list byte → Z;           (* the context it returns for the bytes
                                            it was given, 0: NULL                *)
  init_from_file : string → Z;           (* whisper_init_from_file_with_params   *)
  default_params : whisper_full_params;  (* whisper_full_default_params(GREEDY)  *)
  full_status : Z → whisper_full_params → list jfloat → Z → Z;  (* whisper_full  *)
  n_segments : Z → Z;                    (* whisper_full_n_segments              *)
  segment_text : Z → Z → option string;  (* whisper_full_get_segment_text        *)
  segment_t0 : Z → Z → Z;
  segment_t1 : Z → Z → Z;
}.

(** [struct whisper_model_loader] *)
Record whisper_model_loader := mk_whisper_model_loader {
  context : Z;
  read : Z → list byte → Z → M (Z * list byte);  (* ctx, output, read_size *)
  eof_fn : Z → M bool;
  close : Z → M unit;
}.

(** ** Logging *)

Definition LOG (p : priority) (msg : string) : M unit :=
  modify (with_log (λ l, l ++ [(p, msg)])).
Definition LOGI := LOG ANDROID_LOG_INFO.
Definition LOGW := LOG ANDROID_LOG_WARN.
Definition LOGE := LOG ANDROID_LOG_ERROR.

(** Every JNI function below first leaves its mark in the trace. *)
Definition jni (c : jni_call) : M unit :=
  modify (with_jni_calls (λ l, l ++ [c])).

(** ** libc *)

(** Reading and writing [is->field]: the block must be live. *)
Definition load (a : Z) : M input_stream_context :=
  λ s, match heap s !! a with
       | Some c => Returns c s
       | None => Crashes UseAfterFree
       end.

Definition store (a : Z) (f : input_stream_context → input_stream_context) : M unit :=
  λ s, match heap s !! a with
       | Some c => Returns tt (with_heap <[a := f c]> s)
       | None => Crashes UseAfterFree
       end.

(** [free(p)]: nothing for NULL, undefined for a block that is not live. *)
Definition free (a : Z) : M unit :=
  λ s, if a =? 0 then Returns tt s
       else match heap s !! a with
            | Some _ => Returns tt (with_heap (delete a) s)
            | None => Crashes InvalidFree
            end.

(** [memcpy(output, ptr, n)]: the first [n] bytes of [output] become those
    of [src]; both must be at least [n] long. *)
Definition memcpy (output src : list byte) (n : Z) : M (list byte) :=
  if (n <=? Z.of_nat (length src)) && (n <=? Z.of_nat (length output))
  then ret (take (Z.to_nat n) src ++ drop (Z.to_nat n) output)
  else crash OutOfBounds.

(** [strcmp(a, b) != 0].  The strings come from GetStringUTFChars, whose
    modified UTF-8 holds no zero byte, so the end of the Rocq string is
    the terminator. *)
Definition strcmp_ne (a b : string) : bool := negb (String.eqb a b).

(** [s[0] != 0] *)
Definition first_char_nonzero (s : string) : bool :=
  match s with
  | EmptyString => false
  | String _ _ => true
  end.

Section Model.

Context (P : Platform) (E : Engine).

Definition calloc : M Z :=
  λ s, if calloc_ok P
       then let a := new_handle s in Returns a (with_heap <[a := zeroed]> s)
       else Returns 0 s.

(** ** JNI *)

(** [GetEnv] of the invocation interface: JNI_OK and the env when the
    thread is attached. *)
Definition GetEnv : M (Z * Z) :=
  jni (GetEnv_call) >>
  (λ s, if thread_env s =? 0 then Returns (JNI_EDETACHED, 0) s
       else Returns (JNI_OK, thread_env s) s).

Definition AttachCurrentThread : M (Z * Z) :=
  jni (AttachCurrentThread_call) >>
  (λ s, if AttachCurrentThread_env P =? 0 then Returns (JNI_ERR, 0) s
       else Returns (0, AttachCurrentThread_env P)
                    (with_thread_env (λ _, AttachCurrentThread_env P) s)).

Definition NewGlobalRef (obj : Z) : M Z :=
  jni (NewGlobalRef_call obj) >>
  (λ s, if (obj =? 0) || negb (NewGlobalRef_ok P obj) then Returns 0 s
       else let g := new_handle s in Returns g (with_globals <[g := obj]> s)).

(** Deleting a reference that is not live is a double release. *)
Definition DeleteGlobalRef (g : Z) : M unit :=
  jni (DeleteGlobalRef_call g) >>
  (λ s, if g =? 0 then Returns tt s
       else match globals s !! g with
            | Some _ => Returns tt (with_globals (delete g) s)
            | None => Crashes StaleReference
            end).

Definition DeleteLocalRef (l : Z) : M unit :=
  jni (DeleteLocalRef_call l) >>
  (λ s, if bool_decide (l ∈ locals s)
       then Returns tt (with_locals (λ X, X ∖ {[l]}) s)
       else Crashes StaleReference).

(** [GetJavaVM(env, &inp->jvm)]: stores the VM in the block on success. *)
Definition GetJavaVM (inp : Z) : M Z :=
  jni GetJavaVM_call >>
  if GetJavaVM_ok P
  then store inp (set_jvm (Z.pos (java_vm P))) >> ret 0
  else ret JNI_ERR.

Definition GetObjectClass (obj : Z) : M Z :=
  jni (GetObjectClass_call obj) >>
  (λ s, if GetObjectClass_ok P
       then let c := new_handle s in Returns c (with_locals (λ X, {[c]} ∪ X) s)
       else Returns 0 s).

(** A method that is not found leaves NoSuchMethodError pending. *)
Definition GetMethodID (cls : Z) (name sig : string) : M Z :=
  jni (GetMethodID_call cls name sig) >>
  (λ s, if method_id P name sig =? 0
       then Returns 0 (with_exception (λ _, true) s)
       else Returns (method_id P name sig) s).

(** A new array is zero-filled and reached through a local reference,
    which also names the array object. *)
Definition NewByteArray (len : Z) : M Z :=
  jni (NewByteArray_call len) >>
  (λ s, if NewByteArray_ok P
       then let a := new_handle s in
            Returns a (with_byte_arrays <[a := replicate (Z.to_nat len) Byte.x00]>
                         (with_locals (λ X, {[a]} ∪ X) s))
       else Returns 0 (with_exception (λ _, true) s)).

(** [CallIntMethod(env, obj, mid, buf, off, len)] for [InputStream.read]:
    the stream's next reply decides what happens.  Java bounds-checks the
    store into the array, so the array keeps its length. *)
Definition CallIntMethod (obj mid buf off len : Z) : M Z :=
  jni (CallIntMethod_call obj mid buf off len) >>
  (λ s, if mid =? 0 then Crashes InvalidMethod else
       match globals s !! obj, globals s !! buf with
       | Some _, Some o =>
           match byte_arrays s !! o with
           | Some arr =>
               match stream s with
               | [] => Returns (-1) s
               | Throws :: rest =>
                   Returns 0 (with_exception (λ _, true) (with_stream (λ _, rest) s))
               | Replies n data :: rest =>
                   let stored := take (Z.to_nat off) arr ++ data
                                 ++ drop (Z.to_nat off + length data) arr in
                   Returns n (with_byte_arrays <[o := take (length arr) stored]>
                                (with_stream (λ _, rest) s))
               end
           | None => Crashes StaleReference
           end
       | _, _ => Crashes StaleReference
       end).

Definition ExceptionCheck : M bool :=
  jni ExceptionCheck_call >> gets exception.
Definition ExceptionDescribe : M unit :=
  jni ExceptionDescribe_call.
Definition ExceptionClear : M unit :=
  jni ExceptionClear_call >> modify (with_exception (λ _, false)).

Definition JNI_COMMIT : Z := 1.
Definition JNI_ABORT : Z := 2.

(** One outstanding acquisition fewer. *)
Fixpoint release_one {A} `{EqDecision A} (x : A) (l : list A) : list A :=
  match l with
  | [] => []
  | y :: l' => if decide (x = y) then l' else y :: release_one x l'
  end.

(** NULL when the runtime cannot give access to the elements. *)
Definition GetByteArrayElements (buf : Z) : M (option (list byte)) :=
  jni (GetByteArrayElements_call buf) >>
  (λ s, match globals s !! buf ≫= (λ o, byte_arrays s !! o) with
       | Some arr =>
           if GetByteArrayElements_ok P
           then Returns (Some arr) (with_pinned (λ l, buf :: l) s)
           else Returns None s
       | None => Crashes StaleReference
       end).

(** Mode 0 and JNI_COMMIT copy the elements back, JNI_ABORT does not;
    all but JNI_COMMIT give the buffer up. *)
Definition ReleaseByteArrayElements (buf : Z) (elems : list byte) (mode : Z) : M unit :=
  jni (ReleaseByteArrayElements_call buf mode) >>
  (λ s, match globals s !! buf with
       | Some o =>
           let s1 := if mode =? JNI_ABORT then s
                     else with_byte_arrays <[o := elems]> s in
           Returns tt (if mode =? JNI_COMMIT then s1
                       else with_pinned (release_one buf) s1)
       | None => Crashes StaleReference
       end).

(** The sample array is reached through the reference Java passed in. *)
Definition GetFloatArrayElements (arr : Z) : M (option (list jfloat)) :=
  jni (GetFloatArrayElements_call arr) >>
  (λ s, match float_arrays s !! arr with
       | Some xs =>
           if GetFloatArrayElements_ok P
           then Returns (Some xs) (with_pinned (λ l, arr :: l) s)
           else Returns None s
       | None => Crashes StaleReference
       end).

Definition GetArrayLength (arr : Z) : M Z :=
  jni (GetArrayLength_call arr) >>
  (λ s, match float_arrays s !! arr with
       | Some xs => Returns (Z.of_nat (length xs)) s
       | None => Crashes StaleReference
       end).

Definition ReleaseFloatArrayElements (arr : Z) (elems : list jfloat) (mode : Z) : M unit :=
  jni (ReleaseFloatArrayElements_call arr mode) >>
  (λ s, match float_arrays s !! arr with
       | Some _ =>
           let s1 := if mode =? JNI_ABORT then s
                     else with_float_arrays <[arr := elems]> s in
           Returns tt (if mode =? JNI_COMMIT then s1
                       else with_pinned (release_one arr) s1)
       | None => Crashes StaleReference
       end).

(** A [jstring] is [None] for the null reference and [Some] of its
    characters otherwise.  NULL when the characters cannot be had. *)
Definition GetStringUTFChars (str : string) : M (option string) :=
  jni (GetStringUTFChars_call str) >>
  (λ s, if GetStringUTFChars_ok P
       then Returns (Some str) (with_utf_chars (λ l, str :: l) s)
       else Returns None s).

Definition ReleaseStringUTFChars (str chars : string) : M unit :=
  jni (ReleaseStringUTFChars_call str) >>
  modify (with_utf_chars (release_one chars)).

(** A reference to a new string, or NULL with an OutOfMemoryError
    pending when the string cannot be built.  The source hands the
    result straight back and never tests it. *)
Definition NewStringUTF (chars : string) : M (option string) :=
  jni (NewStringUTF_call chars) >>
  (λ s, if NewStringUTF_ok P then Returns (Some chars) s
       else Returns None (with_exception (λ _, true) s)).

(** ** The Android asset manager *)

Definition AASSET_MODE_STREAMING : Z := 2.

Definition AAssetManager_fromJava (assetManager : Z) : M Z :=
  ret (AAssetManager_fromJava_result P assetManager).

Definition AAssetManager_open (mgr : Z) (path : string) (mode : Z) : M Z :=
  λ s, match asset_files P path with
       | Some bytes =>
           let a := new_handle s in Returns a (with_assets <[a := bytes]> s)
       | None => Returns 0 s
       end.

(** The number of bytes read, zero at the end of the asset, or a
    negative value on error. *)
Definition AAsset_read (asset : Z) (output : list byte) (count : Z) : M (Z * list byte) :=
  λ s, match assets s !! asset with
       | Some rest =>
           if AAsset_read_ok P then
             let k := Z.min count (Z.of_nat (length rest)) in
             if k <=? Z.of_nat (length output)
             then Returns (k, take (Z.to_nat k) rest ++ drop (Z.to_nat k) output)
                          (with_assets <[asset := drop (Z.to_nat k) rest]> s)
             else Crashes OutOfBounds
           else Returns (-1, output) s
       | None => Crashes UseAfterFree
       end.

Definition AAsset_getRemainingLength64 (asset : Z) : M Z :=
  λ s, match assets s !! asset with
       | Some rest => Returns (Z.of_nat (length rest)) s
       | None => Crashes UseAfterFree
       end.

Definition AAsset_close (asset : Z) : M unit :=
  λ s, match assets s !! asset with
       | Some _ => Returns tt (with_assets (delete asset) s)
       | None => Crashes InvalidFree
       end.

(** ** The engine, seen from this file *)

Definition called (c : engine_call) : M unit :=
  modify (with_engine_calls (λ l, l ++ [c])).

(** The engine drives the loader it is given: each request goes to the
    loader's callback with the loader's context, a read into a buffer of
    the requested size. *)
Fixpoint serve (l : whisper_model_loader) (rs : list loader_request)
    (got : list byte) : M (list byte) :=
  match rs with
  | [] => ret got
  | ask_read n :: rs' =>
      let* r := read l (context l) (replicate (Z.to_nat n) Byte.x00) n in
      serve l rs' (got ++ take (Z.to_nat (fst r)) (snd r))
  | ask_eof :: rs' =>
      eof_fn l (context l) >> serve l rs' got
  | ask_close :: rs' =>
      close l (context l) >> serve l rs' got
  end.

Definition whisper_init_with_params (l : whisper_model_loader) : M Z :=
  called (whisper_init_with_params_call (context l)) >>
  let* got := serve l (load_requests E) [] in
  ret (load_result E got).

Definition whisper_init_from_file_with_params (path : string) : M Z :=
  called (whisper_init_from_file_with_params_call path) >>
  ret (init_from_file E path).

Definition whisper_free (ctx : Z) : M unit := called (whisper_free_call ctx).
Definition whisper_reset_timings (ctx : Z) : M unit := called (whisper_reset_timings_call ctx).
Definition whisper_print_timings (ctx : Z) : M unit := called (whisper_print_timings_call ctx).

(** The samples go in through a pointer to const: the engine reads them. *)
Definition whisper_full (ctx : Z) (p : whisper_full_params) (samples : list jfloat) (n : Z) : M Z :=
  called (whisper_full_call ctx p samples n) >>
  ret (full_status E ctx p samples n).

Definition whisper_full_n_segments (ctx : Z) : M Z :=
  called (whisper_full_n_segments_call ctx) >> ret (n_segments E ctx).
Definition whisper_full_get_segment_text (ctx index : Z) : M (option string) :=
  called (whisper_full_get_segment_text_call ctx index) >> ret (segment_text E ctx index).
Definition whisper_full_get_segment_t0 (ctx index : Z) : M Z :=
  called (whisper_full_get_segment_t0_call ctx index) >> ret (segment_t0 E ctx index).
Definition whisper_full_get_segment_t1 (ctx index : Z) : M Z :=
  called (whisper_full_get_segment_t1_call ctx index) >> ret (segment_t1 E ctx index).

(** ** Helpers *)

Definition get_env_from_jvm (jvm : Z) : M Z :=
  if jvm =? 0 then ret 0 else
  let* r := GetEnv in
  if negb (fst r =? JNI_OK) then
    let* r' := AttachCurrentThread in
    if negb (fst r' =? 0) then
      LOGE "AttachCurrentThread failed" >> ret 0
    else ret (snd r')
  else ret (snd r).

(** [is->f] *)
Definition field {A} (f : input_stream_context → A) (is_ : Z) : M A :=
  let* c := load is_ in ret (f c).

(** ** InputStream loader *)

Definition is_read (ctx : Z) (output : list byte) (read_size : Z) : M (Z * list byte) :=
  let is_ := ctx in
  if is_ =? 0 then ret (0, output) else
  let* c := load is_ in
  if (jvm c =? 0) || (input_stream c =? 0) || (buffer_gl c =? 0) then ret (0, output) else
  let* env := get_env_from_jvm (jvm c) in
  if env =? 0 then ret (0, output) else
  let chunk := to_jint (if read_size >? to_size_t (buf_len c)
                        then to_size_t (buf_len c) else read_size) in
  let* n := CallIntMethod (input_stream c) (mid_read c) (buffer_gl c) 0 chunk in
  let* exc := ExceptionCheck in
  if exc then
    LOGE "Exception in InputStream.read()" >>
    ExceptionDescribe >>
    ExceptionClear >>
    store is_ (set_eof 1) >>
    ret (0, output)
  else if n <=? 0 then store is_ (set_eof 1) >> ret (0, output)
  else
    let* ptr := GetByteArrayElements (buffer_gl c) in
    match ptr with
    | None =>
        LOGE "GetByteArrayElements returned NULL" >>
        store is_ (set_eof 1) >>
        ret (0, output)
    | Some elems =>
        let* output' := memcpy output elems n in
        ReleaseByteArrayElements (buffer_gl c) elems JNI_ABORT >>
        ret (n, output')
    end.

Definition is_eof (ctx : Z) : M bool :=
  let is_ := ctx in
  if is_ =? 0 then ret true else
  let* e := field eof is_ in ret (negb (e =? 0)).

Definition is_close (ctx : Z) : M unit :=
  let is_ := ctx in
  if is_ =? 0 then ret tt else
  let* vm := field jvm is_ in
  let* env := get_env_from_jvm vm in
  (if env =? 0 then ret tt else
     (let* r := field input_stream is_ in
      if r =? 0 then ret tt
      else DeleteGlobalRef r >> store is_ (set_input_stream 0)) >>
     (let* r := field buffer_gl is_ in
      if r =? 0 then ret tt
      else DeleteGlobalRef r >> store is_ (set_buffer_gl 0))) >>
  free is_.

Definition Java_com_negi_nativelib_WhisperLib_initContextFromInputStream
    (env clazz input_stream : Z) : M Z :=
  if input_stream =? 0 then
    LOGW "initContextFromInputStream: null InputStream" >> ret 0
  else
  let* inp := calloc in
  if inp =? 0 then LOGE "calloc failed" >> ret 0 else
  let* rc := GetJavaVM inp in
  if negb (rc =? 0) then LOGE "GetJavaVM failed" >> free inp >> ret 0 else
  let* g := NewGlobalRef input_stream in
  store inp (set_input_stream g) >>
  if g =? 0 then LOGE "NewGlobalRef failed" >> free inp >> ret 0 else
  let* cls := GetObjectClass input_stream in
  let* mid := (if cls =? 0 then ret 0 else GetMethodID cls "read" "([BII)I") in
  store inp (set_mid_read mid) >>
  (if cls =? 0 then ret tt else DeleteLocalRef cls) >>
  if mid =? 0 then LOGE "GetMethodID(read) failed" >> is_close inp >> ret 0 else
  store inp (set_buf_len (64 * 1024)) >>
  let* len := field buf_len inp in
  let* buffer_local := NewByteArray len in
  if buffer_local =? 0 then LOGE "NewByteArray failed" >> is_close inp >> ret 0 else
  let* g' := NewGlobalRef buffer_local in
  store inp (set_buffer_gl g') >>
  DeleteLocalRef buffer_local >>
  if g' =? 0 then LOGE "NewGlobalRef(buffer) failed" >> is_close inp >> ret 0 else
  let loader := mk_whisper_model_loader inp is_read is_eof is_close in
  let* ctx := whisper_init_with_params loader in
  if ctx =? 0 then
    LOGE "whisper_init_with_params failed (InputStream)" >> is_close inp >> ret 0
  else ret ctx.

(** ** Asset loader *)

Definition asset_read (ctx : Z) (output : list byte) (read_size : Z) : M (Z * list byte) :=
  let* r := AAsset_read ctx output read_size in
  ret (if fst r >? 0 then fst r else 0, snd r).

Definition asset_eof (ctx : Z) : M bool :=
  let* n := AAsset_getRemainingLength64 ctx in ret (n <=? 0).

Definition asset_close (ctx : Z) : M unit :=
  if ctx =? 0 then ret tt else AAsset_close ctx.

(** [asset_path]: [None] for a NULL pointer. *)
Definition whisper_init_from_asset (env assetManager : Z) (asset_path : option string) : M Z :=
  match asset_path with
  | None => ret 0
  | Some path =>
      if assetManager =? 0 then ret 0 else
      LOGI ("Loading model from asset '" +:+ path +:+ "'") >>
      let* mgr := AAssetManager_fromJava assetManager in
      if mgr =? 0 then ret 0 else
      let* asset := AAssetManager_open mgr path AASSET_MODE_STREAMING in
      if asset =? 0 then LOGE "AAssetManager_open failed" >> ret 0 else
      let loader := mk_whisper_model_loader asset asset_read asset_eof asset_close in
      whisper_init_with_params loader
  end.

Definition Java_com_negi_nativelib_WhisperLib_initContextFromAsset
    (env clazz assetManager : Z) (asset_path_str : option string) : M Z :=
  match asset_path_str with
  | None => ret 0
  | Some str =>
      let* path := GetStringUTFChars str in
      match path with
      | None => ret 0
      | Some chars =>
          let* ctx := whisper_init_from_asset env assetManager (Some chars) in
          ReleaseStringUTFChars str chars >>
          ret ctx
      end
  end.

(** ** File path loader *)

Definition Java_com_negi_nativelib_WhisperLib_initContext
    (env clazz : Z) (model_path_str : option string) : M Z :=
  match model_path_str with
  | None => ret 0
  | Some str =>
      let* path := GetStringUTFChars str in
      match path with
      | None => ret 0
      | Some chars =>
          let* ctx := whisper_init_from_file_with_params chars in
          ReleaseStringUTFChars str chars >>
          ret ctx
      end
  end.

Definition Java_com_negi_nativelib_WhisperLib_freeContext
    (env clazz context_ptr : Z) : M unit :=
  if context_ptr =? 0 then ret tt else whisper_free context_ptr.

(** ** Transcribe *)

Definition Java_com_negi_nativelib_WhisperLib_fullTranscribe
    (env clazz context_ptr : Z) (lang_str : option string)
    (num_threads translate audio_data : Z) : M unit :=
  let ctx := context_ptr in
  if (ctx =? 0) || (audio_data =? 0) then LOGW "fullTranscribe: invalid args" else
  let* pcm := GetFloatArrayElements audio_data in
  match pcm with
  | None => ret tt
  | Some samples =>
      let* n := GetArrayLength audio_data in
      let* lang := match lang_str with
                   | Some str => GetStringUTFChars str
                   | None => ret None
                   end in
      let p := default_params E in
      let p := set_n_threads (if num_threads >? 0 then num_threads else 1) p in
      let p := set_translate (translate =? JNI_TRUE) p in
      let p := set_no_context true p in
      let p := set_print_realtime false p in
      let p := set_print_progress false p in
      let p := set_print_timestamps false p in
      let p := set_print_special false p in
      let p := match lang with
               | Some l =>
                   if first_char_nonzero l && strcmp_ne l "auto"
                   then set_detect_language false (set_language (Some l) p)
                   else set_detect_language true p
               | None => set_detect_language true p
               end in
      whisper_reset_timings ctx >>
      let* status := whisper_full ctx p samples n in
      (if negb (status =? 0) then LOGW "whisper_full failed"
       else whisper_print_timings ctx) >>
      match lang_str, lang with
      | Some str, Some chars => ReleaseStringUTFChars str chars
      | _, _ => ret tt
      end >>
      ReleaseFloatArrayElements audio_data samples JNI_ABORT
  end.

(** ** Segments *)

Definition Java_com_negi_nativelib_WhisperLib_getTextSegmentCount
    (env clazz context_ptr : Z) : M Z :=
  if context_ptr =? 0 then ret 0 else whisper_full_n_segments context_ptr.

Definition Java_com_negi_nativelib_WhisperLib_getTextSegment
    (env clazz context_ptr index : Z) : M (option string) :=
  if context_ptr =? 0 then NewStringUTF "" else
  let* s := whisper_full_get_segment_text context_ptr index in
  NewStringUTF (match s with Some text => text | None => "" end).

Definition Java_com_negi_nativelib_WhisperLib_getTextSegmentT0
    (env clazz context_ptr index : Z) : M Z :=
  if context_ptr =? 0 then ret 0 else whisper_full_get_segment_t0 context_ptr index.

Definition Java_com_negi_nativelib_WhisperLib_getTextSegmentT1
    (env clazz context_ptr index : Z) : M Z :=
  if context_ptr =? 0 then ret 0 else whisper_full_get_segment_t1 context_ptr index.

End Model.

(** * Reading a run *)

(** The lengths asked of the stream by the calls of a trace. *)
Definition reads_requested (l : list jni_call) : list Z :=
  omap (λ c, match c with
             | CallIntMethod_call _ _ _ _ len => Some len
             | _ => None
             end) l.

(** The global references deleted by the calls of a trace. *)
Definition deleted (l : list jni_call) : list Z :=
  omap (λ c, match c with
             | DeleteGlobalRef_call g => Some g
             | _ => None
             end) l.

(** The global references a context holds. *)
Definition held (c : input_stream_context) : list Z :=
  (if input_stream c =? 0 then [] else [input_stream c])
  ++ (if buffer_gl c =? 0 then [] else [buffer_gl c]).

(** Two states that differ at most in the thread's attachment, the log
    and the JNI trace. *)
Definition same_objects (s s' : State) : Prop :=
  heap s' = heap s ∧ globals s' = globals s ∧ locals s' = locals s
  ∧ byte_arrays s' = byte_arrays s ∧ float_arrays s' = float_arrays s
  ∧ exception s' = exception s ∧ stream s' = stream s
  ∧ assets s' = assets s ∧ utf_chars s' = utf_chars s
  ∧ pinned s' = pinned s ∧ engine_calls s' = engine_calls s.

(** What a run that returns leaves behind; a crash leaves nothing. *)
Definition leaves {A} (o : outcome A) (Q : A → State → Prop) : Prop :=
  match o with
  | Returns a s => Q a s
  | Crashes _ => False
  end.

(** * Concrete runs *)

Module Scenario.

(** A platform on which every call succeeds. *)
Definition platform : Platform :=
  {| calloc_ok := true;
     java_vm := 9%positive;
     GetJavaVM_ok := true;
     AttachCurrentThread_env := 78;
     NewGlobalRef_ok := λ _, true;
     GetObjectClass_ok := true;
     method_id := λ name sig,
       if String.eqb name "read" && String.eqb sig "([BII)I" then 42 else 0;
     NewByteArray_ok := true;
     GetByteArrayElements_ok := true;
     GetFloatArrayElements_ok := true;
     GetStringUTFChars_ok := true;
     AAssetManager_fromJava_result := λ am, if am =? 0 then 0 else 100;
     asset_files := λ name,
       if String.eqb name "models/ggml-tiny.bin"
       then Some [Byte.x67; Byte.x67; Byte.x6d; Byte.x6c]
       else None;
     AAsset_read_ok := true;
     NewStringUTF_ok := true |}.

(** The same platform when the runtime cannot hand over the characters
    of a string. *)
Definition platform_without_chars : Platform :=
  {| calloc_ok := true;
     java_vm := 9%positive;
     GetJavaVM_ok := true;
     AttachCurrentThread_env := 78;
     NewGlobalRef_ok := λ _, true;
     GetObjectClass_ok := true;
     method_id := method_id platform;
     NewByteArray_ok := true;
     GetByteArrayElements_ok := true;
     GetFloatArrayElements_ok := true;
     GetStringUTFChars_ok := false;
     AAssetManager_fromJava_result := AAssetManager_fromJava_result platform;
     asset_files := asset_files platform;
     AAsset_read_ok := true;
     NewStringUTF_ok := true |}.

(** The same platform when the runtime cannot give access to the
    elements of the byte array. *)
Definition platform_without_elements : Platform :=
  {| calloc_ok := true;
     java_vm := 9%positive;
     GetJavaVM_ok := true;
     AttachCurrentThread_env := 78;
     NewGlobalRef_ok := λ _, true;
     GetObjectClass_ok := true;
     method_id := method_id platform;
     NewByteArray_ok := true;
     GetByteArrayElements_ok := false;
     GetFloatArrayElements_ok := true;
     GetStringUTFChars_ok := true;
     AAssetManager_fromJava_result := AAssetManager_fromJava_result platform;
     asset_files := asset_files platform;
     AAsset_read_ok := true;
     NewStringUTF_ok := true |}.

(** The same platform when the runtime cannot build a string. *)
Definition platform_without_strings : Platform :=
  {| calloc_ok := true;
     java_vm := 9%positive;
     GetJavaVM_ok := true;
     AttachCurrentThread_env := 78;
     NewGlobalRef_ok := λ _, true;
     GetObjectClass_ok := true;
     method_id := method_id platform;
     NewByteArray_ok := true;
     GetByteArrayElements_ok := true;
     GetFloatArrayElements_ok := true;
     GetStringUTFChars_ok := true;
     AAssetManager_fromJava_result := AAssetManager_fromJava_result platform;
     asset_files := asset_files platform;
     AAsset_read_ok := true;
     NewStringUTF_ok := false |}.

Definition greedy : whisper_full_params :=
  {| n_threads := 4; translate := false; no_context := false;
     print_realtime := false; print_progress := true;
     print_timestamps := true; print_special := false;
     language := Some "en"; detect_language := false; others := 0 |}.

(** An engine that asks for four bytes, closes the loader as the loader
    contract has it, and finds no model in what it was given. *)
Definition engine : Engine :=
  {| load_requests := [ask_read 4; ask_close];
     load_result := λ _, 0;
     init_from_file := λ _, 0;
     default_params := greedy;
     full_status := λ _ _ _ _, 0;
     n_segments := λ _, 0;
     segment_text := λ _ _, None;
     segment_t0 := λ _ _, 0;
     segment_t1 := λ _ _, 0 |}.

(** The same engine when it leaves the loader open. *)
Definition engine_leaving_open : Engine :=
  {| load_requests := [ask_read 4];
     load_result := λ _, 0;
     init_from_file := λ _, 0;
     default_params := greedy;
     full_status := λ _ _ _ _, 0;
     n_segments := λ _, 0;
     segment_text := λ _ _, None;
     segment_t0 := λ _ _, 0;
     segment_t1 := λ _ _, 0 |}.

(** A thread attached to the runtime, with one float array of three
    samples at reference 8 and a stream that has nothing to give. *)
Definition start : State :=
  {| heap := ∅; globals := ∅; locals := ∅; byte_arrays := ∅;
     float_arrays := {[ 8 := [1; 2; 3] ]};
     thread_env := 77; exception := false; stream := [];
     assets := ∅; utf_chars := []; pinned := []; log := [];
     jni_calls := []; engine_calls := [] |}.

(** A context as initContextFromInputStream leaves it for the engine: at
    address 1, its stream behind global reference 2, its 64 KiB buffer
    behind global reference 3; the stream will answer three bytes. *)
Definition opened_context : input_stream_context :=
  {| jvm := 9; input_stream := 2; mid_read := 42; buffer_gl := 3;
     buf_len := 64 * 1024; eof := 0 |}.

(** The buffer as NewByteArray made it. *)
Definition buffer : list byte := replicate (Z.to_nat (64 * 1024)) Byte.x00.

Definition opened : State :=
  {| heap := {[ 1 := opened_context ]};
     globals := {[ 2 := 5; 3 := 6 ]};
     locals := ∅;
     byte_arrays := {[ 6 := buffer ]};
     float_arrays := ∅;
     thread_env := 77; exception := false;
     stream := [Replies 3 [Byte.x01; Byte.x02; Byte.x03]];
     assets := ∅; utf_chars := []; pinned := []; log := [];
     jni_calls := []; engine_calls := [] |}.

(** A context on which only the runtime handle was ever set. *)
Definition half_filled : State :=
  {| heap := {[ 1 := set_jvm 9 zeroed ]};
     globals := ∅; locals := ∅; byte_arrays := ∅; float_arrays := ∅;
     thread_env := 77; exception := false; stream := [];
     assets := ∅; utf_chars := []; pinned := []; log := [];
     jni_calls := []; engine_calls := [] |}.

End Scenario.

(** * System information, benchmarks and JNI_OnLoad *)

(** The three engine functions of lines 285, 293 and 301 take no context
    and return a C string, or NULL; the file only hands their answer on.
    They are the fields of this record. *)
Record Diagnostics := mk_Diagnostics {
  print_system_info : option string;          (* whisper_print_system_info()     *)
  bench_memcpy_str : Z → option string;       (* whisper_bench_memcpy_str(n)     *)
  bench_ggml_mul_mat_str : Z → option string; (* whisper_bench_ggml_mul_mat_str  *)
}.

(** [s ? s : ""] *)
Definition or_empty (s : option string) : string :=
  match s with
  | Some text => text
  | None => ""
  end.

Definition Java_com_negi_nativelib_WhisperLib_getSystemInfo
    (P : Platform) (D : Diagnostics) (env clazz : Z) : M (option string) :=
  let s := print_system_info D in
  NewStringUTF P (or_empty s).

Definition Java_com_negi_nativelib_WhisperLib_benchMemcpy
    (P : Platform) (D : Diagnostics) (env clazz n_threads : Z) : M (option string) :=
  let s := bench_memcpy_str D n_threads in
  NewStringUTF P (or_empty s).

Definition Java_com_negi_nativelib_WhisperLib_benchGgmlMulMat
    (P : Platform) (D : Diagnostics) (env clazz n_threads : Z) : M (option string) :=
  let s := bench_ggml_mul_mat_str D n_threads in
  NewStringUTF P (or_empty s).

Definition JNI_VERSION_1_6 : Z := 0x00010006.

Definition JNI_OnLoad (vm reserved : Z) : Z := JNI_VERSION_1_6.

(** * Loaders and frames *)

(** The loader initContextFromInputStream hands to the engine (line 129)
    and the one whisper_init_from_asset hands to it (line 156). *)
Definition stream_loader (P : Platform) (inp : Z) : whisper_model_loader :=
  mk_whisper_model_loader inp (is_read P) is_eof (is_close P).

Definition asset_loader (P : Platform) (asset : Z) : whisper_model_loader :=
  mk_whisper_model_loader asset (asset_read P) asset_eof asset_close.

(** What a callback of the stream loader leaves alone while the context
    at [ctx] is open: the reference tables, the native resources other
    than the block at [ctx], and in that block all but the eof mark. *)
Definition callback_frame (ctx : Z) (s s' : State) : Prop :=
  globals s' = globals s ∧ locals s' = locals s
  ∧ engine_calls s' = engine_calls s
  ∧ float_arrays s' = float_arrays s ∧ assets s' = assets s
  ∧ utf_chars s' = utf_chars s ∧ pinned s' = pinned s
  ∧ (thread_env s ≠ 0 → thread_env s' ≠ 0)
  ∧ delete ctx (heap s') = delete ctx (heap s)
  ∧ (∀ c, heap s !! ctx = Some c →
       ∃ c', heap s' !! ctx = Some c' ∧ jvm c' = jvm c
             ∧ input_stream c' = input_stream c ∧ mid_read c' = mid_read c
             ∧ buffer_gl c' = buffer_gl c ∧ buf_len c' = buf_len c).

(** What no callback of the stream loader touches, close included. *)
Definition outside_loader (s s' : State) : Prop :=
  locals s' = locals s ∧ engine_calls s' = engine_calls s
  ∧ float_arrays s' = float_arrays s ∧ assets s' = assets s
  ∧ utf_chars s' = utf_chars s ∧ pinned s' = pinned s.

(** Every return of [m] is related to its start by [R]. *)
Inductive preserves {A} (R : State → State → Prop) (m : M A) : Prop :=
  | preserves_intro : (∀ s a s', m s = Returns a s' → R s s') → preserves R m.

(** What the set-up of initContextFromInputStream (lines 109 to 127)
    leaves when every step of it succeeded: a new block at [inp] that
    holds two new global references, the first to the stream, and
    nothing else changed among the resources. *)
Definition set_up (stream_object : Z) (s s6 : State) (inp : Z) : Prop :=
  inp ≠ 0 ∧ heap s !! inp = None
  ∧ locals s6 = locals s ∧ thread_env s6 = thread_env s
  ∧ ∃ c b, heap s6 = <[inp := c]> (heap s)
           ∧ globals s6 = <[buffer_gl c := b]>
                            (<[input_stream c := stream_object]> (globals s))
           ∧ jvm c ≠ 0 ∧ input_stream c ≠ 0 ∧ buffer_gl c ≠ 0
           ∧ input_stream c ≠ buffer_gl c
           ∧ globals s !! input_stream c = None
           ∧ globals s !! buffer_gl c = None
           ∧ buf_len c = 64 * 1024 ∧ eof c = 0.

(** What a run returned, when it returned. *)
Definition returned {A} (o : outcome A) : option A :=
  match o with
  | Returns a _ => Some a
  | Crashes _ => None
  end.

(** * More concrete runs *)

Module Cases.

(** The platform of [Scenario] when a detached thread cannot be
    attached. *)
Definition platform_without_attach : Platform :=
  {| calloc_ok := true;
     java_vm := 9%positive;
     GetJavaVM_ok := true;
     AttachCurrentThread_env := 0;
     NewGlobalRef_ok := λ _, true;
     GetObjectClass_ok := true;
     method_id := method_id Scenario.platform;
     NewByteArray_ok := true;
     GetByteArrayElements_ok := true;
     GetFloatArrayElements_ok := true;
     GetStringUTFChars_ok := true;
     AAssetManager_fromJava_result :=
       AAssetManager_fromJava_result Scenario.platform;
     asset_files := asset_files Scenario.platform;
     AAsset_read_ok := true;
     NewStringUTF_ok := true |}.

(** The same platform when the runtime gives no access to the samples. *)
Definition platform_without_samples : Platform :=
  {| calloc_ok := true;
     java_vm := 9%positive;
     GetJavaVM_ok := true;
     AttachCurrentThread_env := 78;
     NewGlobalRef_ok := λ _, true;
     GetObjectClass_ok := true;
     method_id := method_id Scenario.platform;
     NewByteArray_ok := true;
     GetByteArrayElements_ok := true;
     GetFloatArrayElements_ok := false;
     GetStringUTFChars_ok := true;
     AAssetManager_fromJava_result :=
       AAssetManager_fromJava_result Scenario.platform;
     asset_files := asset_files Scenario.platform;
     AAsset_read_ok := true;
     NewStringUTF_ok := true |}.

(** The same platform when no byte array can be made. *)
Definition platform_without_buffer : Platform :=
  {| calloc_ok := true;
     java_vm := 9%positive;
     GetJavaVM_ok := true;
     AttachCurrentThread_env := 78;
     NewGlobalRef_ok := λ _, true;
     GetObjectClass_ok := true;
     method_id := method_id Scenario.platform;
     NewByteArray_ok := false;
     GetByteArrayElements_ok := true;
     GetFloatArrayElements_ok := true;
     GetStringUTFChars_ok := true;
     AAssetManager_fromJava_result :=
       AAssetManager_fromJava_result Scenario.platform;
     asset_files := asset_files Scenario.platform;
     AAsset_read_ok := true;
     NewStringUTF_ok := true |}.


(** An engine that reads four bytes, asks whether more is to come,
    closes the loader and has found a model, at address 500. *)
Definition engine_with_model : Engine :=
  {| load_requests := [ask_read 4; ask_eof; ask_close];
     load_result := λ _, 500;
     init_from_file := λ _, 500;
     default_params := Scenario.greedy;
     full_status := λ _ _ _ _, 0;
     n_segments := λ _, 2;
     segment_text := λ _ i, if i =? 0 then Some "hello" else None;
     segment_t0 := λ _ i, 100 * i;
     segment_t1 := λ _ i, 100 * i + 100 |}.

(** An engine whose run fails. *)
Definition engine_failing : Engine :=
  {| load_requests := [ask_read 4; ask_close];
     load_result := λ _, 0;
     init_from_file := λ _, 0;
     default_params := Scenario.greedy;
     full_status := λ _ _ _ _, 7;
     n_segments := λ _, 0;
     segment_text := λ _ _, None;
     segment_t0 := λ _ _, 0;
     segment_t1 := λ _ _, 0 |}.

(** [Scenario.opened] on a detached thread. *)
Definition opened_detached : State :=
  with_thread_env (λ _, 0) Scenario.opened.

(** [Scenario.start] on a detached thread. *)
Definition detached : State :=
  with_thread_env (λ _, 0) Scenario.start.


End Cases.

(** * What holds of the file *)

(** ** The monad *)

Lemma bind_Returns {A B} (m : M A) (k : A → M B) s a s' :
  m s = Returns a s' → bind m k s = k a s'.
Proof. intros H. unfold bind. now rewrite H. Qed.

Lemma bind_Crashes {A B} (m : M A) (k : A → M B) s f :
  m s = Crashes f → bind m k s = Crashes f.
Proof. intros H. unfold bind. now rewrite H. Qed.

Lemma bind_inv {A B} (m : M A) (k : A → M B) s b s' :
  bind m k s = Returns b s' →
  ∃ a s1, m s = Returns a s1 ∧ k a s1 = Returns b s'.
Proof.
  unfold bind. destruct (m s) as [a s1|f]; [|discriminate].
  intros H. now exists a, s1.
Qed.

(** Projections meet setters. *)
Ltac fields :=
  cbn [heap globals locals byte_arrays float_arrays thread_env exception
       stream assets utf_chars pinned log jni_calls engine_calls
       with_heap with_globals with_locals with_byte_arrays with_float_arrays
       with_thread_env with_exception with_stream with_assets with_utf_chars
       with_pinned with_log with_jni_calls with_engine_calls].

(** Two states with the same components are the same state. *)
Lemma State_eq (s s' : State) :
  heap s = heap s' → globals s = globals s' → locals s = locals s' →
  byte_arrays s = byte_arrays s' → float_arrays s = float_arrays s' →
  thread_env s = thread_env s' → exception s = exception s' →
  stream s = stream s' → assets s = assets s' → utf_chars s = utf_chars s' →
  pinned s = pinned s' → log s = log s' → jni_calls s = jni_calls s' →
  engine_calls s = engine_calls s' → s = s'.
Proof. destruct s, s'. simpl. intros. subst. reflexivity. Qed.

Ltac same_state :=
  f_equal; apply State_eq; fields; try reflexivity.

(** ** Small facts *)

Lemma release_one_head {A} `{EqDecision A} (x : A) (l : list A) :
  release_one x (x :: l) = l.
Proof. simpl. destruct (decide (x = x)); congruence. Qed.

Lemma first_char_nonzero_true (l : string) :
  first_char_nonzero l = true ↔ l ≠ "".
Proof. destruct l; simpl; split; congruence. Qed.

Lemma strcmp_ne_true (a b : string) : strcmp_ne a b = true ↔ a ≠ b.
Proof. unfold strcmp_ne. rewrite negb_true_iff. apply String.eqb_neq. Qed.

Lemma language_test (l : string) :
  first_char_nonzero l && strcmp_ne l "auto" = true ↔ l ≠ "" ∧ l ≠ "auto".
Proof. now rewrite andb_true_iff, first_char_nonzero_true, strcmp_ne_true. Qed.

Lemma to_jint_small z : - 2 ^ 31 ≤ z < 2 ^ 31 → to_jint z = z.
Proof. intros H. unfold to_jint. rewrite Z.mod_small; lia. Qed.

Lemma to_size_t_small z : 0 ≤ z < 2 ^ 64 → to_size_t z = z.
Proof. intros H. unfold to_size_t. now rewrite Z.mod_small. Qed.

(** The request handed to the stream is the smaller of what the engine
    asked and the 64 KiB of the buffer. *)
Lemma chunk_clamped read_size :
  0 ≤ read_size →
  to_jint (if read_size >? to_size_t (64 * 1024)
           then to_size_t (64 * 1024) else read_size)
  = Z.min read_size (64 * 1024).
Proof.
  intros H. rewrite to_size_t_small by lia.
  destruct (Z.gtb_spec read_size (64 * 1024)); rewrite to_jint_small; lia.
Qed.

Lemma reads_requested_app l l' :
  reads_requested (l ++ l') = reads_requested l ++ reads_requested l'.
Proof. apply omap_app. Qed.

Lemma deleted_app l l' : deleted (l ++ l') = deleted l ++ deleted l'.
Proof. apply omap_app. Qed.

Ltac trace :=
  rewrite ?deleted_app, ?reads_requested_app; simpl;
  rewrite ?app_nil_r, <- ?app_assoc; reflexivity.

(** ** Resolving the execution context *)

(** [get_env_from_jvm] always returns; it touches nothing but the
    thread's attachment, the log and the trace, and it yields an env
    whenever the VM is there and the thread is attached or can be. *)
Lemma get_env_from_jvm_spec P vm s :
  ∃ env s', get_env_from_jvm P vm s = Returns env s'
    ∧ same_objects s s'
    ∧ reads_requested (jni_calls s') = reads_requested (jni_calls s)
    ∧ (vm ≠ 0 → thread_env s ≠ 0 ∨ AttachCurrentThread_env P ≠ 0 → env ≠ 0).
Proof.
  unfold get_env_from_jvm.
  destruct (vm =? 0) eqn:Hvm.
  { apply Z.eqb_eq in Hvm. exists 0, s. split; [reflexivity|].
    split; [repeat split|]. split; [reflexivity|]. intros; congruence. }
  unfold GetEnv, AttachCurrentThread, LOGE, LOG, jni, modify, ret, bind. simpl.
  destruct (thread_env s =? 0) eqn:Hth; simpl.
  - apply Z.eqb_eq in Hth.
    destruct (AttachCurrentThread_env P =? 0) eqn:Hat; simpl;
      eexists _, _; (split; [reflexivity|]); simpl;
      (split; [repeat split|]);
      rewrite ?reads_requested_app; simpl; rewrite ?app_nil_r;
      (split; [reflexivity|]).
    + apply Z.eqb_eq in Hat. intros _ [?|?]; congruence.
    + apply Z.eqb_neq in Hat. auto.
  - apply Z.eqb_neq in Hth.
    eexists _, _; (split; [reflexivity|]); simpl;
      (split; [repeat split|]);
      rewrite ?reads_requested_app; simpl; rewrite ?app_nil_r; auto.
Qed.

(** ** The stream loader's callbacks *)

Section Callbacks.

Context (P : Platform).

(** C10.  On a context whose struct pointer, runtime handle, stream
    reference or buffer reference is null, [is_read] returns zero and
    leaves the state as it found it: nothing is added to the trace of JNI
    calls, nothing is written to the output buffer.  [is_eof] on the null
    context answers true. *)
Theorem is_read_is_eof_null_context (ctx : Z) (output : list byte)
    (read_size : Z) (s : State) :
  ctx = 0 ∨ (∃ c, heap s !! ctx = Some c
                  ∧ (jvm c = 0 ∨ input_stream c = 0 ∨ buffer_gl c = 0)) →
  is_read P ctx output read_size s = Returns (0, output) s
  ∧ is_eof 0 s = Returns true s.
Proof.
  intros H. split; [|reflexivity].
  unfold is_read. destruct H as [->|(c & Hc & Hnull)]; [reflexivity|].
  destruct (ctx =? 0); [reflexivity|].
  rewrite (bind_Returns _ _ s c s) by (unfold load; now rewrite Hc).
  destruct Hnull as [-> | [-> | ->]]; simpl;
    rewrite ?orb_true_r; reflexivity.
Qed.

(** C3, as the code has it.  Take a populated context (no null field, a
    live stream reference, a live reference to the buffer array, a
    capacity of 64 KiB), a thread that is attached or can be, and no
    exception pending.  Then the stream is asked once, for the smaller of
    the requested length and 64 KiB, and:
    - if the stream throws, the exception is cleared, the context is
      marked exhausted and 0 is returned;
    - if the stream reports zero or fewer bytes, the context is marked
      exhausted and 0 is returned;
    - if it reports n > 0 bytes but the runtime gives no access to the
      elements of the buffer, the context is marked exhausted and 0 is
      returned;
    - otherwise, n being within the buffer and the output, the first n
      bytes of the buffer are copied to the start of the output, n is
      returned and the context is not marked. *)
Theorem is_read_populated_context (ctx : Z) (c : input_stream_context)
    (o : Z) (arr output : list byte) (read_size : Z) (s : State) :
  ctx ≠ 0 → heap s !! ctx = Some c →
  jvm c ≠ 0 → input_stream c ≠ 0 → mid_read c ≠ 0 → buffer_gl c ≠ 0 →
  buf_len c = 64 * 1024 →
  is_Some (globals s !! input_stream c) →
  globals s !! buffer_gl c = Some o →
  byte_arrays s !! o = Some arr →
  thread_env s ≠ 0 ∨ AttachCurrentThread_env P ≠ 0 →
  exception s = false →
  0 ≤ read_size →
  let asked s' :=
    reads_requested (jni_calls s')
    = reads_requested (jni_calls s) ++ [Z.min read_size (64 * 1024)] in
  let exhausted s' := heap s' !! ctx = Some (set_eof 1 c) in
  (∀ rest, stream s = Throws :: rest →
     ∃ s', is_read P ctx output read_size s = Returns (0, output) s'
           ∧ asked s' ∧ exhausted s' ∧ exception s' = false
           ∧ In ExceptionClear_call (jni_calls s'))
  ∧ (∀ n data rest,
       stream s = [] ∨ (stream s = Replies n data :: rest ∧ n ≤ 0) →
       ∃ s', is_read P ctx output read_size s = Returns (0, output) s'
             ∧ asked s' ∧ exhausted s')
  ∧ (∀ n data rest,
       stream s = Replies n data :: rest → 0 < n →
       GetByteArrayElements_ok P = false →
       ∃ s', is_read P ctx output read_size s = Returns (0, output) s'
             ∧ asked s' ∧ exhausted s')
  ∧ (∀ n data rest,
       stream s = Replies n data :: rest → 0 < n →
       GetByteArrayElements_ok P = true →
       n ≤ Z.of_nat (length arr) → n ≤ Z.of_nat (length output) →
       ∃ s' arr',
         is_read P ctx output read_size s
         = Returns (n, take (Z.to_nat n) arr' ++ drop (Z.to_nat n) output) s'
         ∧ asked s'
         ∧ arr' = take (length arr) (data ++ drop (length data) arr)
         ∧ byte_arrays s' !! o = Some arr'
         ∧ heap s' !! ctx = Some c).
Proof.
  intros Hctx Hc Hjvm His Hmid Hbuf Hlen [obj Hobj] Ho Harr Hthread Hexc Hsize
         asked exhausted.
  destruct (get_env_from_jvm_spec P (jvm c) s)
    as (env & s1 & Henv & Hsame & Hreads & Hnz).
  specialize (Hnz Hjvm Hthread).
  destruct Hsame as (Hh & Hg & _ & Hb & _ & He & Hs & _).
  assert (Hrun : is_read P ctx output read_size s =
    (let* n := CallIntMethod (input_stream c) (mid_read c) (buffer_gl c) 0
                 (Z.min read_size (64 * 1024)) in
     let* exc := ExceptionCheck in
     if exc then
       LOGE "Exception in InputStream.read()" >> ExceptionDescribe >>
       ExceptionClear >> store ctx (set_eof 1) >> ret (0, output)
     else if n <=? 0 then store ctx (set_eof 1) >> ret (0, output)
     else
       let* ptr := GetByteArrayElements P (buffer_gl c) in
       match ptr with
       | None =>
           LOGE "GetByteArrayElements returned NULL" >>
           store ctx (set_eof 1) >> ret (0, output)
       | Some elems =>
           let* output' := memcpy output elems n in
           ReleaseByteArrayElements (buffer_gl c) elems JNI_ABORT >>
           ret (n, output')
       end) s1).
  { unfold is_read.
    apply Z.eqb_neq in Hctx, Hjvm, His, Hbuf, Hnz. rewrite Hctx.
    rewrite (bind_Returns _ _ s c s) by (unfold load; now rewrite Hc).
    rewrite Hjvm, His, Hbuf. simpl.
    rewrite (bind_Returns _ _ _ _ _ Henv), Hnz, Hlen, chunk_clamped by done.
    reflexivity. }
  rewrite Hrun. clear Hrun.
  unfold asked, exhausted.
  apply Z.eqb_neq in Hmid.
  unfold CallIntMethod, ExceptionCheck, ExceptionDescribe, ExceptionClear,
    GetByteArrayElements, ReleaseByteArrayElements, memcpy, store, LOGE, LOG,
    jni, modify, gets, crash, ret, bind. simpl.
  rewrite Hmid, Hg, Hobj, Ho, Hb, Harr, Hs.
  destruct (stream s) as [|[|n data] rest]; simpl; rewrite ?He, ?Hexc; simpl.
  - (* the stream has nothing more to give: read returns -1 *)
    rewrite Hh, Hc.
    split; [discriminate|]. split; [|split; discriminate].
    intros _ _ _ _. eexists. split; [reflexivity|]. fields.
    rewrite !reads_requested_app, Hreads. simpl. rewrite app_nil_r.
    split; [reflexivity|]. apply lookup_insert_eq.
  - (* the stream throws *)
    rewrite Hh, Hc.
    split; [|split; [|split]]; try (intros; discriminate).
    + intros _ _. eexists. split; [reflexivity|]. fields.
      rewrite !reads_requested_app, Hreads. simpl. rewrite !app_nil_r.
      split; [reflexivity|]. split; [apply lookup_insert_eq|].
      split; [reflexivity|]. rewrite !in_app_iff. simpl. tauto.
    + intros ? ? ? [?|[? _]]; discriminate.
  - (* the stream answers n *)
    split; [discriminate|].
    destruct (Z.leb_spec n 0) as [Hn|Hn]; cbn beta iota; fields.
    + rewrite Hh, Hc.
      split; [|split; intros; simplify_eq; lia].
      intros _ _ _ _. eexists. split; [reflexivity|]. fields.
      rewrite !reads_requested_app, Hreads. simpl. rewrite app_nil_r.
      split; [reflexivity|]. apply lookup_insert_eq.
    + rewrite Hg, Ho. simpl. rewrite lookup_insert_eq. simpl.
      split; [intros ? ? ? [?|[? ?]]; simplify_eq; lia|].
      destruct (GetByteArrayElements_ok P); simpl.
      * split; [discriminate|].
        intros n' data' rest' ? _ _ Hna Hno. simplify_eq.
        rewrite length_take, length_app, length_drop.
        replace (n' <=? _) with true by (symmetry; apply Z.leb_le; lia).
        replace (n' <=? _) with true by (symmetry; apply Z.leb_le; lia).
        simpl. rewrite Hg, Ho. simpl.
        eexists _, _. split; [reflexivity|]. fields.
        rewrite !reads_requested_app, Hreads. simpl. rewrite !app_nil_r.
        split; [reflexivity|]. split; [reflexivity|].
        split; [apply lookup_insert_eq|]. now rewrite Hh.
      * split; [|discriminate].
        intros n' data' rest' ? _ _. simplify_eq.
        rewrite Hh, Hc. eexists. split; [reflexivity|]. fields.
        rewrite !reads_requested_app, Hreads. simpl. rewrite !app_nil_r.
        split; [reflexivity|]. apply lookup_insert_eq.
Qed.

(** A context marked exhausted answers true to [is_eof]. *)
Lemma is_eof_exhausted (ctx : Z) (c : input_stream_context) (s : State) :
  ctx ≠ 0 → heap s !! ctx = Some (set_eof 1 c) → is_eof ctx s = Returns true s.
Proof.
  intros Hctx Hc. unfold is_eof, field, load, ret, bind.
  apply Z.eqb_neq in Hctx. now rewrite Hctx, Hc.
Qed.

(** *** close *)

(** A close that returns has freed the context. *)
Lemma is_close_frees (ctx : Z) (s s' : State) :
  ctx ≠ 0 → is_close P ctx s = Returns tt s' → heap s' !! ctx = None.
Proof.
  intros Hctx. unfold is_close. apply Z.eqb_neq in Hctx. rewrite Hctx.
  intros H.
  apply bind_inv in H as (vm & s1 & _ & H).
  apply bind_inv in H as (env & s2 & _ & H).
  apply bind_inv in H as (u & s3 & _ & H).
  unfold free in H. rewrite Hctx in H.
  destruct (heap s3 !! ctx); [|discriminate].
  injection H as <-. fields. apply lookup_delete_eq.
Qed.

(** Hence a second close of the same context reads a freed block, on
    every platform and from every state. *)
Lemma is_close_twice (ctx : Z) (s s' : State) :
  ctx ≠ 0 → is_close P ctx s = Returns tt s' →
  is_close P ctx s' = Crashes UseAfterFree.
Proof.
  intros Hctx H. pose proof (is_close_frees _ _ _ Hctx H) as Hfreed.
  unfold is_close. apply Z.eqb_neq in Hctx. rewrite Hctx.
  apply bind_Crashes. unfold field. apply bind_Crashes.
  unfold load. now rewrite Hfreed.
Qed.

(** Closing the null context does nothing, any number of times. *)
Lemma is_close_null (s : State) : is_close P 0 s = Returns tt s.
Proof. reflexivity. Qed.

(** The run of one close of a live context on an attached thread. *)
Lemma is_close_run (ctx : Z) (c : input_stream_context) (s : State) :
  ctx ≠ 0 → heap s !! ctx = Some c →
  jvm c ≠ 0 → thread_env s ≠ 0 →
  (∀ r, r ∈ held c → is_Some (globals s !! r)) →
  NoDup (held c) →
  is_close P ctx s
  = Returns tt
      (with_heap (delete ctx)
         (with_globals (λ G, foldr delete G (held c))
            (with_jni_calls
               (λ l, l ++ GetEnv_call :: map DeleteGlobalRef_call (held c)) s))).
Proof.
  intros Hctx Hc Hjvm Hth Hlive Hnd.
  unfold is_close, field, get_env_from_jvm, GetEnv, DeleteGlobalRef, store,
    free, load, jni, modify, ret, bind.
  apply Z.eqb_neq in Hctx, Hjvm, Hth. rewrite Hctx. fields.
  rewrite Hc, Hjvm. fields. rewrite Hth. simpl. rewrite Hth. fields.
  rewrite Hc.
  unfold held in *.
  destruct (input_stream c =? 0) eqn:H1; destruct (buffer_gl c =? 0) eqn:H2;
    simpl in Hlive, Hnd |- *.
  - repeat (progress (rewrite ?Hc, ?H1, ?H2; fields)).
    same_state.
  - destruct (Hlive (buffer_gl c)) as [o Ho]; [apply list_elem_of_singleton; reflexivity|].
    repeat (progress (rewrite ?Hc, ?H1, ?H2, ?Ho, ?lookup_insert_eq; fields)).
    same_state; [apply delete_insert_eq|now rewrite <- app_assoc].
  - destruct (Hlive (input_stream c)) as [o Ho]; [apply list_elem_of_singleton; reflexivity|].
    repeat (progress (rewrite ?Hc, ?H1, ?H2, ?Ho, ?lookup_insert_eq; fields;
                      cbn [set_input_stream buffer_gl])).
    same_state; [apply delete_insert_eq|now rewrite <- app_assoc].
  - destruct (Hlive (input_stream c)) as [o Ho]; [left|].
    destruct (Hlive (buffer_gl c)) as [o' Ho']; [right; left|].
    assert (Hne : input_stream c ≠ buffer_gl c).
    { apply NoDup_cons in Hnd as [Hnotin _]. intros Heq. apply Hnotin.
      rewrite Heq. left. }
    repeat (progress (rewrite ?Hc, ?H1, ?H2, ?Ho, ?lookup_insert_eq; fields;
                      cbn [set_input_stream buffer_gl])).
    rewrite lookup_delete_ne, Ho' by done.
    repeat (progress (rewrite ?lookup_insert_eq; fields)).
    same_state;
      [now rewrite !delete_insert_eq|apply delete_delete
      |now rewrite <- !app_assoc].
Qed.

Lemma lookup_foldr_delete {A} (G : gmap Z A) (l : list Z) (r : Z) :
  foldr delete G l !! r = if bool_decide (r ∈ l) then None else G !! r.
Proof.
  induction l as [|x l IH]; cbn [foldr].
  { rewrite bool_decide_eq_false_2; [reflexivity|apply not_elem_of_nil]. }
  destruct (decide (x = r)) as [->|Hne].
  { rewrite lookup_delete_eq, bool_decide_eq_true_2; [reflexivity|left]. }
  rewrite lookup_delete_ne, IH by assumption.
  destruct (decide (r ∈ l)) as [Hin|Hnin].
  - rewrite (bool_decide_eq_true_2 (r ∈ l)) by assumption.
    rewrite (bool_decide_eq_true_2 (r ∈ x :: l)); [reflexivity|now right].
  - rewrite (bool_decide_eq_false_2 (r ∈ l)) by assumption.
    rewrite (bool_decide_eq_false_2 (r ∈ x :: l)); [reflexivity|].
    intros [->|?]%elem_of_cons; [congruence|contradiction].
Qed.

Lemma deleted_DeleteGlobalRef (l : list Z) :
  deleted (map DeleteGlobalRef_call l) = l.
Proof.
  induction l as [|x l IH]; [reflexivity|].
  change (deleted (map DeleteGlobalRef_call (x :: l)))
    with (x :: deleted (map DeleteGlobalRef_call l)).
  now rewrite IH.
Qed.

(** X1.  One close of a live context, filled or half-filled, on an
    attached thread: each reference the context holds is deleted once,
    the fields that were never set are skipped, and the block is freed. *)
Lemma is_close_releases (ctx : Z) (c : input_stream_context) (s : State) :
  ctx ≠ 0 → heap s !! ctx = Some c →
  jvm c ≠ 0 → thread_env s ≠ 0 →
  (∀ r, r ∈ held c → is_Some (globals s !! r)) →
  NoDup (held c) →
  ∃ s', is_close P ctx s = Returns tt s'
        ∧ heap s' = delete ctx (heap s)
        ∧ (∀ r, globals s' !! r = if bool_decide (r ∈ held c) then None
                                  else globals s !! r)
        ∧ deleted (jni_calls s') = deleted (jni_calls s) ++ held c
        ∧ locals s' = locals s
        ∧ engine_calls s' = engine_calls s.
Proof.
  intros Hctx Hc Hjvm Hth Hlive Hnd.
  eexists. split; [now apply (is_close_run ctx c)|]. fields.
  split; [reflexivity|]. split; [apply lookup_foldr_delete|].
  split; [|split; reflexivity].
  rewrite deleted_app. f_equal. apply deleted_DeleteGlobalRef.
Qed.

End Callbacks.

(** ** The three loaders *)

Section Loaders.

Context (P : Platform) (E : Engine).

#[local] Abbreviation initContextFromInputStream :=
  (Java_com_negi_nativelib_WhisperLib_initContextFromInputStream P E).
#[local] Abbreviation initContextFromAsset :=
  (Java_com_negi_nativelib_WhisperLib_initContextFromAsset P E).
#[local] Abbreviation initContext :=
  (Java_com_negi_nativelib_WhisperLib_initContext P E).

(** C1, as the code has it.  A null stream, a null entry name, a null
    asset manager or a null path gives the zero handle and no call into
    the engine.  Emptiness is not tested: an entry name, empty or not,
    goes to the asset manager, and gives the zero handle with no call
    into the engine when the asset manager has no such entry; a path,
    empty or not, goes to the engine's initialisation from a file, whose
    result is returned. *)
Theorem loaders_reject_null (env clazz : Z) (s : State) :
  initContextFromInputStream env clazz 0 s
  = Returns 0 (with_log (λ l, l ++ [(ANDROID_LOG_WARN,
                 "initContextFromInputStream: null InputStream")]) s)
  ∧ (∀ assetManager,
       initContextFromAsset env clazz assetManager None s = Returns 0 s)
  ∧ (∀ str, ∃ s',
       initContextFromAsset env clazz 0 (Some str) s = Returns 0 s'
       ∧ engine_calls s' = engine_calls s)
  ∧ (∀ assetManager str, asset_files P str = None → ∃ s',
       initContextFromAsset env clazz assetManager (Some str) s = Returns 0 s'
       ∧ engine_calls s' = engine_calls s)
  ∧ initContext env clazz None s = Returns 0 s
  ∧ (∀ str, GetStringUTFChars_ok P = true → ∃ s',
       initContext env clazz (Some str) s = Returns (init_from_file E str) s'
       ∧ engine_calls s'
         = engine_calls s ++ [whisper_init_from_file_with_params_call str]).
Proof.
  split; [reflexivity|]. split; [reflexivity|].
  split; [|split; [|split; [reflexivity|]]].
  - intros str.
    unfold Java_com_negi_nativelib_WhisperLib_initContextFromAsset,
      whisper_init_from_asset, GetStringUTFChars, ReleaseStringUTFChars,
      jni, modify, ret, bind. simpl.
    destruct (GetStringUTFChars_ok P); eexists; split; reflexivity.
  - intros assetManager str Hnone.
    unfold Java_com_negi_nativelib_WhisperLib_initContextFromAsset,
      whisper_init_from_asset, GetStringUTFChars, ReleaseStringUTFChars,
      AAssetManager_fromJava, AAssetManager_open, LOGI, LOGE, LOG,
      jni, modify, ret, bind. simpl.
    destruct (GetStringUTFChars_ok P); [|eexists; split; reflexivity].
    destruct (assetManager =? 0); [eexists; split; reflexivity|].
    destruct (AAssetManager_fromJava_result P assetManager =? 0);
      [eexists; split; reflexivity|].
    rewrite Hnone. eexists; split; reflexivity.
  - intros str Hutf.
    unfold Java_com_negi_nativelib_WhisperLib_initContext,
      whisper_init_from_file_with_params, GetStringUTFChars,
      ReleaseStringUTFChars, called, jni, modify, ret, bind. simpl.
    rewrite Hutf. eexists; split; reflexivity.
Qed.

End Loaders.

(** ** Transcribe *)

Section Transcribe.

Context (P : Platform) (E : Engine).

#[local] Abbreviation fullTranscribe :=
  (Java_com_negi_nativelib_WhisperLib_fullTranscribe P E).

Ltac run_transcribe :=
  unfold GetFloatArrayElements, GetArrayLength, GetStringUTFChars,
    ReleaseStringUTFChars, ReleaseFloatArrayElements, whisper_reset_timings,
    whisper_full, whisper_print_timings, called, jni, LOGW, LOGE, LOGI, LOG,
    modify, gets, ret, bind; simpl.

(** C7.  With a zero handle or a null sample array the call returns, and
    all it has done is log one warning: the engine is not called, no JNI
    call is made. *)
Theorem fullTranscribe_invalid_args (env clazz context_ptr : Z)
    (lang_str : option string) (num_threads translate audio_data : Z)
    (s : State) :
  context_ptr = 0 ∨ audio_data = 0 →
  fullTranscribe env clazz context_ptr lang_str num_threads translate audio_data s
  = Returns tt (with_log (λ l, l ++ [(ANDROID_LOG_WARN,
                                      "fullTranscribe: invalid args")]) s).
Proof.
  intros H. unfold Java_com_negi_nativelib_WhisperLib_fullTranscribe.
  replace ((context_ptr =? 0) || (audio_data =? 0)) with true; [reflexivity|].
  destruct H as [-> | ->]; simpl; now rewrite ?orb_true_r.
Qed.

(** A thread count below 1 gives the run that a thread count of 1
    gives, from every state and for every argument. *)
Lemma fullTranscribe_below_one_as_one (env clazz context_ptr : Z)
    (lang_str : option string) (num_threads translate audio_data : Z)
    (s : State) :
  num_threads < 1 →
  fullTranscribe env clazz context_ptr lang_str num_threads translate audio_data s
  = fullTranscribe env clazz context_ptr lang_str 1 translate audio_data s.
Proof.
  intros H. unfold Java_com_negi_nativelib_WhisperLib_fullTranscribe.
  replace (num_threads >? 0) with false
    by (symmetry; rewrite Z.gtb_ltb; apply Z.ltb_ge; lia).
  reflexivity.
Qed.

(** C6.  A thread count below 1 is coerced to 1.  For every call with
    a thread count below 1, the call is the call with a thread count
    of 1: the same result and the same final state, hence the same
    engine calls with the same parameters.  And when the call reaches the
    engine (a handle, a sample array whose elements the runtime hands
    over), the engine is run once, on the samples, with parameters whose
    thread count is 1. *)
Theorem fullTranscribe_thread_count_coerced (env clazz context_ptr : Z)
    (lang_str : option string) (num_threads translate audio_data : Z)
    (s : State) :
  num_threads < 1 →
  fullTranscribe env clazz context_ptr lang_str num_threads translate audio_data s
  = fullTranscribe env clazz context_ptr lang_str 1 translate audio_data s
  ∧ ∀ xs,
      context_ptr ≠ 0 → audio_data ≠ 0 →
      float_arrays s !! audio_data = Some xs →
      GetFloatArrayElements_ok P = true →
      ∃ p rest s',
        fullTranscribe env clazz context_ptr lang_str num_threads translate
          audio_data s
        = Returns tt s'
        ∧ engine_calls s' = engine_calls s
             ++ [whisper_reset_timings_call context_ptr;
                 whisper_full_call context_ptr p xs (Z.of_nat (length xs))]
             ++ rest
        ∧ (rest = [] ∨ rest = [whisper_print_timings_call context_ptr])
        ∧ n_threads p = 1.
Proof.
  intros Hn. split; [exact (fullTranscribe_below_one_as_one _ _ _ _ _ _ _ _ Hn)|].
  intros xs Hc Ha Hxs Hpin.
  rewrite (fullTranscribe_below_one_as_one _ _ _ _ _ _ _ _ Hn).
  unfold Java_com_negi_nativelib_WhisperLib_fullTranscribe.
  apply Z.eqb_neq in Hc, Ha. rewrite Hc, Ha. simpl.
  run_transcribe. rewrite Hxs, Hpin. simpl. rewrite Hxs.
  destruct lang_str as [l|]; simpl;
    [destruct (GetStringUTFChars_ok P) eqn:Hutf; simpl;
     [destruct (first_char_nonzero l && strcmp_ne l "auto")|]|].
  all: match goal with |- context [full_status ?e ?c ?p ?x ?n =? 0] =>
         exists p; destruct (full_status e c p x n =? 0) end; simpl; rewrite Hxs;
       eexists; eexists; (split; [reflexivity|]); simpl;
       (split; [rewrite <- !app_assoc; reflexivity|]);
       (split; [auto|]); reflexivity.
Qed.

(** C5, as the code has it.  On a call that reaches the engine (a handle,
    a sample array whose elements the runtime hands over), the engine is
    run once, with parameters p such that:
    - with no language string, the empty one or "auto", p asks for
      auto-detection;
    - with any other string whose characters the runtime hands over, p
      does not ask for auto-detection and carries that very string as its
      language;
    - with a string whose characters the runtime does not hand over, p
      asks for auto-detection. *)
Theorem fullTranscribe_language (env clazz context_ptr : Z)
    (lang_str : option string) (num_threads translate audio_data : Z)
    (xs : list jfloat) (s : State) :
  context_ptr ≠ 0 → audio_data ≠ 0 →
  float_arrays s !! audio_data = Some xs →
  GetFloatArrayElements_ok P = true →
  ∃ p rest s',
    fullTranscribe env clazz context_ptr lang_str num_threads translate audio_data s
    = Returns tt s'
    ∧ engine_calls s' = engine_calls s
         ++ [whisper_reset_timings_call context_ptr;
             whisper_full_call context_ptr p xs (Z.of_nat (length xs))] ++ rest
    ∧ (rest = [] ∨ rest = [whisper_print_timings_call context_ptr])
    ∧ (lang_str = None ∨ lang_str = Some "" ∨ lang_str = Some "auto" →
       detect_language p = true)
    ∧ (∀ l, lang_str = Some l → l ≠ "" → l ≠ "auto" →
            GetStringUTFChars_ok P = true →
            detect_language p = false ∧ language p = Some l)
    ∧ (∀ l, lang_str = Some l → GetStringUTFChars_ok P = false →
            detect_language p = true).
Proof.
  intros Hc Ha Hxs Hpin. unfold Java_com_negi_nativelib_WhisperLib_fullTranscribe.
  apply Z.eqb_neq in Hc, Ha. rewrite Hc, Ha. simpl.
  run_transcribe. rewrite Hxs, Hpin. simpl. rewrite Hxs.
  destruct lang_str as [l|]; simpl;
    [destruct (GetStringUTFChars_ok P) eqn:Hutf; simpl|].
  all: match goal with |- context [full_status ?e ?c ?p ?x ?n =? 0] =>
         exists p; destruct (full_status e c p x n =? 0) end; simpl; rewrite Hxs;
       eexists; eexists; (split; [reflexivity|]); simpl;
       (split; [rewrite <- !app_assoc; reflexivity|]);
       (split; [auto|]).
  - (* the characters were handed over; the engine succeeded *)
    split; [|split].
    + intros [?|[?|?]]; simplify_eq; reflexivity.
    + intros l' ? Hne1 Hne2 _. simplify_eq.
      rewrite (proj2 (language_test l')) by auto. split; reflexivity.
    + congruence.
  - (* the characters were handed over; the engine failed *)
    split; [|split].
    + intros [?|[?|?]]; simplify_eq; reflexivity.
    + intros l' ? Hne1 Hne2 _. simplify_eq.
      rewrite (proj2 (language_test l')) by auto. split; reflexivity.
    + congruence.
  - (* the characters were not handed over *)
    split; [|split]; [reflexivity|congruence|reflexivity].
  - split; [|split]; [reflexivity|congruence|reflexivity].
  - (* no language string *)
    split; [|split]; [reflexivity|congruence|congruence].
  - split; [|split]; [reflexivity|congruence|congruence].
Qed.

(** C8.  The call returns, whatever its arguments (the sample array being
    null or a float array), and when it does every buffer of characters it
    took is given back, every pinning of the samples is undone, and the
    float arrays hold what they held. *)
Theorem fullTranscribe_gives_back (env clazz context_ptr : Z)
    (lang_str : option string) (num_threads translate audio_data : Z)
    (s : State) :
  audio_data = 0 ∨ is_Some (float_arrays s !! audio_data) →
  ∃ s',
    fullTranscribe env clazz context_ptr lang_str num_threads translate audio_data s
    = Returns tt s'
    ∧ utf_chars s' = utf_chars s
    ∧ pinned s' = pinned s
    ∧ float_arrays s' = float_arrays s.
Proof.
  intros H. unfold Java_com_negi_nativelib_WhisperLib_fullTranscribe.
  destruct ((context_ptr =? 0) || (audio_data =? 0)) eqn:Hargs.
  { eexists. split; [reflexivity|]. now simpl. }
  apply orb_false_elim in Hargs as [_ Ha]. apply Z.eqb_neq in Ha.
  destruct H as [->|[xs Hxs]]; [congruence|].
  run_transcribe. rewrite Hxs.
  destruct (GetFloatArrayElements_ok P); simpl.
  2:{ eexists. split; [reflexivity|]. now simpl. }
  rewrite Hxs.
  destruct lang_str as [l|]; simpl; [destruct (GetStringUTFChars_ok P); simpl|].
  all: match goal with |- context [full_status ?e ?c ?p ?x ?n =? 0] =>
         destruct (full_status e c p x n =? 0) end; simpl; rewrite Hxs;
       eexists; (split; [reflexivity|]); simpl;
       rewrite ?decide_True by reflexivity; auto.
Qed.

End Transcribe.

(** ** Segments *)

Section Segments.

Context (P : Platform) (E : Engine).

#[local] Abbreviation getTextSegmentCount :=
  (Java_com_negi_nativelib_WhisperLib_getTextSegmentCount E).
#[local] Abbreviation getTextSegment :=
  (Java_com_negi_nativelib_WhisperLib_getTextSegment P E).
#[local] Abbreviation getTextSegmentT0 :=
  (Java_com_negi_nativelib_WhisperLib_getTextSegmentT0 E).
#[local] Abbreviation getTextSegmentT1 :=
  (Java_com_negi_nativelib_WhisperLib_getTextSegmentT1 E).

(** C9, as the code has it.  With a zero handle the count and both
    timestamps are 0 and the engine is not asked.  The text accessor, for
    every handle and index, makes one JNI call, NewStringUTF, on a text
    that is the empty string for the zero handle (the engine is then not
    asked) and when the engine has no text, and the engine's text
    otherwise; it returns what NewStringUTF returns, untested: a
    reference to a string of that text when the runtime builds one, and
    the null reference when it does not. *)
Theorem segment_accessors_zero_handle (env clazz index : Z) (s : State) :
  getTextSegmentCount env clazz 0 s = Returns 0 s
  ∧ getTextSegmentT0 env clazz 0 index s = Returns 0 s
  ∧ getTextSegmentT1 env clazz 0 index s = Returns 0 s
  ∧ (∀ context_ptr, ∃ text s',
       getTextSegment env clazz context_ptr index s
       = Returns (if NewStringUTF_ok P then Some text else None) s'
       ∧ jni_calls s' = jni_calls s ++ [NewStringUTF_call text]
       ∧ (context_ptr = 0 → text = "" ∧ engine_calls s' = engine_calls s)
       ∧ (context_ptr ≠ 0 → segment_text E context_ptr index = None →
          text = "")
       ∧ (∀ t, context_ptr ≠ 0 → segment_text E context_ptr index = Some t →
               text = t)).
Proof.
  repeat split; try reflexivity.
  intros context_ptr.
  unfold Java_com_negi_nativelib_WhisperLib_getTextSegment.
  destruct (context_ptr =? 0) eqn:H0.
  - apply Z.eqb_eq in H0. exists "".
    unfold NewStringUTF, jni, modify, bind. fields.
    destruct (NewStringUTF_ok P); eexists; (split; [reflexivity|]); fields;
      (split; [reflexivity|]); (split; [auto|]); split; congruence.
  - apply Z.eqb_neq in H0.
    unfold whisper_full_get_segment_text, bind, called, modify, ret,
      NewStringUTF, jni. fields.
    destruct (segment_text E context_ptr index) as [t|] eqn:Ht;
      [exists t|exists ""];
      destruct (NewStringUTF_ok P); eexists; (split; [reflexivity|]); fields;
      (split; [reflexivity|]); (split; [congruence|]); split; congruence.
Qed.

End Segments.

(** * The concrete runs *)

Section Runs.

Import Scenario.

#[local] Abbreviation initContextFromInputStream :=
  Java_com_negi_nativelib_WhisperLib_initContextFromInputStream.
#[local] Abbreviation initContext :=
  Java_com_negi_nativelib_WhisperLib_initContext.
#[local] Abbreviation fullTranscribe :=
  Java_com_negi_nativelib_WhisperLib_fullTranscribe.

(** ** close, twice *)

(** C2.  What the code does when a filled context is closed twice: the
    first close deletes the stream reference and the buffer reference,
    once each, and frees the block; the second close reads the freed
    block. *)
Theorem is_close_twice_reads_freed_block :
  leaves (is_close platform 1 opened) (λ _ s',
    heap s' = ∅ ∧ globals s' = ∅ ∧ deleted (jni_calls s') = [2; 3]
    ∧ is_close platform 1 s' = Crashes UseAfterFree).
Proof. vm_compute. repeat split; reflexivity. Qed.

(** The same on a context whose references were never set: nothing is
    deleted, the block is freed, and the second close reads it. *)
Example is_close_twice_half_filled :
  leaves (is_close platform 1 half_filled) (λ _ s',
    heap s' = ∅ ∧ deleted (jni_calls s') = []
    ∧ is_close platform 1 s' = Crashes UseAfterFree).
Proof. vm_compute. repeat split; reflexivity. Qed.

(** ** initContextFromInputStream when the engine fails *)

(** C4.  What the code does when every step of the set-up succeeds and
    the engine, having closed the loader, finds no model: the context was
    freed by the engine's close, and the close made on the failure path
    reads the freed block. *)
Theorem initContextFromInputStream_closes_closed_context :
  initContextFromInputStream platform engine 77 0 5 start
  = Crashes UseAfterFree.
Proof. vm_compute. reflexivity. Qed.

(** With an engine that leaves the loader open the same run returns the
    zero handle and has released the block and both references. *)
Example initContextFromInputStream_engine_leaving_open :
  leaves (initContextFromInputStream platform engine_leaving_open 77 0 5 start)
    (λ h s', h = 0 ∧ heap s' = ∅ ∧ globals s' = ∅ ∧ locals s' = ∅
             ∧ deleted (jni_calls s') = [10; 12]).
Proof. vm_compute. repeat split; reflexivity. Qed.

(** ** Where the claims as written fail *)

(** C1 as written fails on the empty path: it is handed to the engine. *)
Lemma initContext_empty_path_reaches_engine :
  leaves (initContext platform engine 77 0 (Some "") start) (λ _ s',
    engine_calls s' = [whisper_init_from_file_with_params_call ""]
    ∧ engine_calls s' ≠ engine_calls start).
Proof. vm_compute. split; [reflexivity|discriminate]. Qed.

(** C3 as written fails when the stream reports three bytes and the
    runtime gives no access to the buffer: nothing is copied, zero is
    returned and the context is marked exhausted. *)
Lemma is_read_without_elements_copies_nothing :
  stream opened = [Replies 3 [Byte.x01; Byte.x02; Byte.x03]]
  ∧ leaves (is_read platform_without_elements 1 (replicate 16 Byte.x00) 16 opened)
      (λ r s', r = (0, replicate 16 Byte.x00)
               ∧ heap s' !! 1 = Some (set_eof 1 opened_context)).
Proof. split; [reflexivity|]. vm_compute. split; reflexivity. Qed.

(** C5 as written fails on the language "fr" when the runtime does not
    hand over its characters: the engine is asked to detect the
    language. *)
Lemma fullTranscribe_without_chars_detects :
  leaves (fullTranscribe platform_without_chars engine 77 0 5 (Some "fr") 2 0 8 start)
    (λ _ s',
       engine_calls s'
       = [whisper_reset_timings_call 5;
          whisper_full_call 5
            {| n_threads := 2; translate := false; no_context := true;
               print_realtime := false; print_progress := false;
               print_timestamps := false; print_special := false;
               language := Some "en"; detect_language := true; others := 0 |}
            [1; 2; 3] 3;
          whisper_print_timings_call 5]).
Proof. vm_compute. reflexivity. Qed.

(** C9 as written fails when the runtime cannot build a string: the
    text accessor returns the null reference, for the zero handle as for
    any other. *)
Lemma getTextSegment_without_string_is_null :
  leaves (Java_com_negi_nativelib_WhisperLib_getTextSegment
            platform_without_strings engine 77 0 0 0 start)
    (λ r s', r = None ∧ jni_calls s' = [NewStringUTF_call ""])
  ∧ leaves (Java_com_negi_nativelib_WhisperLib_getTextSegment
              platform_without_strings engine 77 0 5 0 start)
      (λ r s', r = None ∧ segment_text engine 5 0 = None).
Proof. vm_compute. repeat split; reflexivity. Qed.

(** ** The theorems at work *)

Lemma is_read_is_eof_null_context_witness :
  is_read platform 1 [] 16 half_filled = Returns (0, []) half_filled
  ∧ is_eof 0 half_filled = Returns true half_filled.
Proof.
  apply is_read_is_eof_null_context. right.
  exists (set_jvm 9 zeroed). split; [reflexivity|]. right. left. reflexivity.
Defined.

Lemma is_read_populated_context_witness :
  ∃ s', is_read platform 1 (replicate 16 Byte.x00) 16 opened
        = Returns (3, [Byte.x01; Byte.x02; Byte.x03] ++ replicate 13 Byte.x00) s'
        ∧ reads_requested (jni_calls s') = [16]
        ∧ heap s' !! 1 = Some opened_context.
Proof.
  assert (Hlen : Z.of_nat (length buffer) = 64 * 1024).
  { unfold buffer. rewrite length_replicate. apply Z2Nat.id. lia. }
  destruct (is_read_populated_context platform 1 opened_context 6 buffer
              (replicate 16 Byte.x00) 16 opened) as (_ & _ & _ & H).
  - lia.
  - reflexivity.
  - discriminate.
  - discriminate.
  - discriminate.
  - discriminate.
  - reflexivity.
  - exists 5. reflexivity.
  - reflexivity.
  - reflexivity.
  - left. discriminate.
  - reflexivity.
  - lia.
  - destruct (H 3 [Byte.x01; Byte.x02; Byte.x03] [])
      as (s' & arr' & Hrun & Hasked & Harr & _ & Hheap).
    + reflexivity.
    + lia.
    + reflexivity.
    + rewrite Hlen. lia.
    + rewrite length_replicate. lia.
    + exists s'. rewrite Hrun, Harr. split; [|split; assumption].
      vm_compute. reflexivity.
Defined.

Lemma fullTranscribe_invalid_args_witness :
  fullTranscribe platform engine 77 0 0 (Some "en") 4 0 8 start
  = Returns tt (with_log (λ l, l ++ [(ANDROID_LOG_WARN,
                                      "fullTranscribe: invalid args")]) start).
Proof. apply fullTranscribe_invalid_args. left. reflexivity. Defined.

Lemma fullTranscribe_thread_count_coerced_witness :
  fullTranscribe platform engine 77 0 5 (Some "en") 0 0 8 start
  = fullTranscribe platform engine 77 0 5 (Some "en") 1 0 8 start
  ∧ ∃ p rest s',
      fullTranscribe platform engine 77 0 5 (Some "en") 0 0 8 start
      = Returns tt s'
      ∧ engine_calls s' = engine_calls start
           ++ [whisper_reset_timings_call 5;
               whisper_full_call 5 p [1; 2; 3] (Z.of_nat (length [1; 2; 3]))]
           ++ rest
      ∧ (rest = [] ∨ rest = [whisper_print_timings_call 5])
      ∧ n_threads p = 1.
Proof.
  destruct (fullTranscribe_thread_count_coerced platform engine 77 0 5
              (Some "en") 0 0 8 start) as [Heq Hrun]; [lia|].
  split; [exact Heq|].
  apply (Hrun [1; 2; 3]); [lia | lia | reflexivity | reflexivity].
Defined.

Lemma fullTranscribe_language_witness :
  ∃ p rest s',
    fullTranscribe platform engine 77 0 5 (Some "fr") 2 0 8 start = Returns tt s'
    ∧ engine_calls s' = engine_calls start
         ++ [whisper_reset_timings_call 5;
             whisper_full_call 5 p [1; 2; 3] (Z.of_nat (length [1; 2; 3]))]
         ++ rest
    ∧ (rest = [] ∨ rest = [whisper_print_timings_call 5])
    ∧ (Some "fr" = None ∨ Some "fr" = Some "" ∨ Some "fr" = Some "auto" →
       detect_language p = true)
    ∧ (∀ l, Some "fr" = Some l → l ≠ "" → l ≠ "auto" →
            GetStringUTFChars_ok platform = true →
            detect_language p = false ∧ language p = Some l)
    ∧ (∀ l, Some "fr" = Some l → GetStringUTFChars_ok platform = false →
            detect_language p = true).
Proof.
  apply (fullTranscribe_language platform engine 77 0 5 (Some "fr") 2 0 8
           [1; 2; 3] start); [lia | lia | reflexivity | reflexivity].
Defined.

Lemma fullTranscribe_gives_back_witness :
  ∃ s',
    fullTranscribe platform engine 77 0 5 (Some "fr") 2 0 8 start = Returns tt s'
    ∧ utf_chars s' = utf_chars start
    ∧ pinned s' = pinned start
    ∧ float_arrays s' = float_arrays start.
Proof.
  apply fullTranscribe_gives_back. right. exists [1; 2; 3]. reflexivity.
Defined.

End Runs.

(** * More of the file *)

(** ** Tools *)

Ltac fields_in H :=
  cbn [heap globals locals byte_arrays float_arrays thread_env exception
       stream assets utf_chars pinned log jni_calls engine_calls
       with_heap with_globals with_locals with_byte_arrays with_float_arrays
       with_thread_env with_exception with_stream with_assets with_utf_chars
       with_pinned with_log with_jni_calls with_engine_calls] in H.

(** Names [t] as [x] throughout, by a binder the kernel sees no body
    of. *)
Ltac name_term t x H :=
  destruct (ex_intro (λ y, y = t) t eq_refl) as [x H];
  repeat match goal with
         | Hy : context [t] |- _ =>
             lazymatch Hy with H => fail | _ => rewrite <- H in Hy end
         end;
  rewrite <- ?H.

(** Follows a run that returned through every test it made. *)
Ltac split_run H :=
  repeat (match type of H with
          | context [match ?x with _ => _ end] => destruct x eqn:?
          end; fields_in H; cbn beta iota in H; try discriminate H).

(** *** Fresh handles *)

Lemma new_handle_fresh (s : State) : new_handle s ∉ used s.
Proof. unfold new_handle. apply is_fresh. Qed.

Lemma new_handle_nonzero (s : State) : new_handle s ≠ 0.
Proof.
  pose proof (new_handle_fresh s) as H. unfold used in H.
  intros Heq. apply H. rewrite Heq.
  do 6 apply elem_of_union_l. now apply elem_of_singleton.
Qed.

Lemma new_handle_heap (s : State) : heap s !! new_handle s = None.
Proof.
  pose proof (new_handle_fresh s) as H. unfold used in H.
  apply not_elem_of_dom. intros Hin. apply H.
  do 5 apply elem_of_union_l. now apply elem_of_union_r.
Qed.

Lemma new_handle_globals (s : State) : globals s !! new_handle s = None.
Proof.
  pose proof (new_handle_fresh s) as H. unfold used in H.
  apply not_elem_of_dom. intros Hin. apply H.
  do 4 apply elem_of_union_l. now apply elem_of_union_r.
Qed.

Lemma new_handle_locals (s : State) : new_handle s ∉ locals s.
Proof.
  pose proof (new_handle_fresh s) as H. unfold used in H.
  intros Hin. apply H.
  do 3 apply elem_of_union_l. now apply elem_of_union_r.
Qed.

Lemma new_handle_assets (s : State) : assets s !! new_handle s = None.
Proof.
  pose proof (new_handle_fresh s) as H. unfold used in H.
  apply not_elem_of_dom. intros Hin. apply H. now apply elem_of_union_r.
Qed.

Lemma local_made (l : Z) (X : gset Z) : bool_decide (l ∈ {[l]} ∪ X) = true.
Proof.
  apply bool_decide_eq_true_2, elem_of_union_l, elem_of_singleton. reflexivity.
Qed.

Lemma local_deleted (l : Z) (X : gset Z) : l ∉ X → ({[l]} ∪ X) ∖ {[l]} = X.
Proof.
  intros Hl. apply set_eq. intros x.
  rewrite elem_of_difference, elem_of_union, !elem_of_singleton.
  split; [tauto|]. intros Hx. split; [tauto|]. congruence.
Qed.

(** *** The engine's requests, one after the other *)

Lemma serve_app l rs rs' got s :
  serve l (rs ++ rs') got s
  = (let* got' := serve l rs got in serve l rs' got') s.
Proof.
  revert got s. induction rs as [|r rs IH]; intros got s; [reflexivity|].
  destruct r; simpl; unfold bind in *.
  - destruct (read l (context l) _ read_size s); [apply IH|reflexivity].
  - destruct (eof_fn l (context l) s); [apply IH|reflexivity].
  - destruct (close l (context l) s); [apply IH|reflexivity].
Qed.

(** ** Frames *)

Lemma preserves_elim {A} R (m : M A) s a s' :
  preserves R m → m s = Returns a s' → R s s'.
Proof. intros [H]. apply H. Qed.

Section Frame.

Context (R : State → State → Prop) `{!Reflexive R} `{!Transitive R}.

Lemma preserves_ret {A} (a : A) : preserves R (ret a).
Proof. constructor. intros s a' s' [= _ <-]. reflexivity. Qed.

Lemma preserves_crash {A} f : preserves R (@crash A f).
Proof. constructor. intros s a s' [=]. Qed.

Lemma preserves_gets {A} (f : State → A) : preserves R (gets f).
Proof. constructor. intros s a' s' [= _ <-]. reflexivity. Qed.

Lemma preserves_bind {A B} (m : M A) (k : A → M B) :
  preserves R m → (∀ a, preserves R (k a)) → preserves R (bind m k).
Proof.
  intros Hm Hk. constructor. intros s b s' H.
  apply bind_inv in H as (a & s1 & H1 & H2).
  transitivity s1; [exact (preserves_elim _ _ _ _ _ Hm H1)
                   |exact (preserves_elim _ _ _ _ _ (Hk a) H2)].
Qed.

Lemma preserves_modify (f : State → State) :
  (∀ s, R s (f s)) → preserves R (modify f).
Proof.
  intros Hf. constructor. intros s a s' H. injection H as _ Hs.
  rewrite <- Hs. apply Hf.
Qed.

End Frame.

#[global] Instance callback_frame_refl ctx : Reflexive (callback_frame ctx).
Proof. intros s. repeat split; eauto 10. Qed.

#[global] Instance callback_frame_trans ctx : Transitive (callback_frame ctx).
Proof.
  intros s1 s2 s3 (Hg & Hl & He & Hf & Ha & Hu & Hp & Ht & Hd & Hc)
         (Hg' & Hl' & He' & Hf' & Ha' & Hu' & Hp' & Ht' & Hd' & Hc').
  repeat split; try congruence; auto.
  intros c H. destruct (Hc c H) as (c2 & H2 & E1 & E2 & E3 & E4 & E5).
  destruct (Hc' c2 H2) as (c3 & H3 & E1' & E2' & E3' & E4' & E5').
  exists c3. repeat split; congruence.
Qed.

#[global] Instance outside_loader_refl : Reflexive outside_loader.
Proof. intros s. repeat split. Qed.

#[global] Instance outside_loader_trans : Transitive outside_loader.
Proof.
  intros s1 s2 s3 (H1 & H2 & H3 & H4 & H5 & H6) (H1' & H2' & H3' & H4' & H5' & H6').
  repeat split; congruence.
Qed.

Lemma callback_frame_outside ctx s s' :
  callback_frame ctx s s' → outside_loader s s'.
Proof.
  intros (Hg & Hl & He & Hf & Ha & Hu & Hp & _). repeat split; assumption.
Qed.

(** A step that only writes the trace, the log, the exception flag, the
    stream or the byte arrays is within the frame. *)
Ltac frame_step :=
  let s := fresh "s" in let a := fresh "a" in let s' := fresh "s'" in
  let H := fresh "H" in
  constructor; intros s a s' H; split_run H; injection H as <- <-;
  repeat split; fields; try reflexivity; try congruence; eauto 10.

Section CallbackFrame.

Context (P : Platform) (ctx : Z).

Lemma frame_ret {A} (a : A) : preserves (callback_frame ctx) (ret a).
Proof. apply preserves_ret. typeclasses eauto. Qed.

Lemma frame_gets {A} (f : State → A) : preserves (callback_frame ctx) (gets f).
Proof. apply preserves_gets. typeclasses eauto. Qed.

Lemma frame_bind {A B} (m : M A) (k : A → M B) :
  preserves (callback_frame ctx) m →
  (∀ a, preserves (callback_frame ctx) (k a)) →
  preserves (callback_frame ctx) (bind m k).
Proof. apply preserves_bind. typeclasses eauto. Qed.

Lemma jni_frame c : preserves (callback_frame ctx) (jni c).
Proof. apply preserves_modify. intros s. repeat split; eauto 10. Qed.

Lemma LOG_frame p msg : preserves (callback_frame ctx) (LOG p msg).
Proof. apply preserves_modify. intros s. repeat split; eauto 10. Qed.

(** A JNI function: its mark in the trace, then a step within the frame. *)
Ltac jni_frame_step :=
  apply frame_bind;
    [ apply jni_frame
    | intros _; first
        [ apply frame_ret
        | apply frame_gets
        | apply preserves_modify; intros s; repeat split; eauto 10
        | frame_step ] ].

Lemma GetEnv_frame : preserves (callback_frame ctx) GetEnv.
Proof. unfold GetEnv. jni_frame_step. Qed.

Lemma AttachCurrentThread_frame :
  preserves (callback_frame ctx) (AttachCurrentThread P).
Proof.
  unfold AttachCurrentThread. jni_frame_step.
  intros _. apply Z.eqb_neq. assumption.
Qed.

Lemma CallIntMethod_frame obj mid buf off len :
  preserves (callback_frame ctx) (CallIntMethod obj mid buf off len).
Proof. unfold CallIntMethod. jni_frame_step. Qed.

Lemma ExceptionCheck_frame : preserves (callback_frame ctx) ExceptionCheck.
Proof. unfold ExceptionCheck. jni_frame_step. Qed.

Lemma ExceptionDescribe_frame : preserves (callback_frame ctx) ExceptionDescribe.
Proof. apply jni_frame. Qed.

Lemma ExceptionClear_frame : preserves (callback_frame ctx) ExceptionClear.
Proof. unfold ExceptionClear. jni_frame_step. Qed.

(** Marking the context exhausted changes its eof field only. *)
Lemma store_eof_frame v : preserves (callback_frame ctx) (store ctx (set_eof v)).
Proof.
  unfold store. constructor. intros s a s' H. split_run H. injection H as _ <-.
  repeat split; fields; try reflexivity; auto.
  - apply delete_insert_eq.
  - intros c Hc. rewrite lookup_insert_eq. simplify_eq. eauto 10.
Qed.

Lemma load_frame a : preserves (callback_frame ctx) (load a).
Proof. unfold load. frame_step. Qed.

(** The elements of the buffer are pinned, copied out and released
    (lines 79 to 84): the pin does not outlive the copy. *)
Lemma copy_out_frame buf output n :
  preserves (callback_frame ctx)
    (let* ptr := GetByteArrayElements P buf in
     match ptr with
     | None =>
         LOGE "GetByteArrayElements returned NULL" >>
         store ctx (set_eof 1) >>
         ret (0, output)
     | Some elems =>
         let* output' := memcpy output elems n in
         ReleaseByteArrayElements buf elems JNI_ABORT >>
         ret (n, output')
     end).
Proof.
  constructor. intros s a s' H.
  apply bind_inv in H as (ptr & s1 & Hget & Hk).
  unfold GetByteArrayElements, jni, modify, bind in Hget. fields_in Hget.
  split_run Hget; injection Hget as <- <-.
  - apply bind_inv in Hk as (output' & s2 & Hcopy & Hk).
    unfold memcpy in Hcopy. destruct (_ && _); [|discriminate].
    injection Hcopy as _ <-.
    unfold ReleaseByteArrayElements, jni, modify, ret, bind in Hk.
    fields_in Hk. destruct (globals s !! buf); [|discriminate].
    change (JNI_ABORT =? JNI_ABORT) with true in Hk.
    change (JNI_ABORT =? JNI_COMMIT) with false in Hk.
    injection Hk as _ <-.
    repeat split; fields; eauto 10. apply release_one_head.
  - assert (Hf : preserves (callback_frame ctx)
                   (LOGE "GetByteArrayElements returned NULL" >>
                    store ctx (set_eof 1) >> ret (0, output))).
    { apply frame_bind; [apply LOG_frame|intros _].
      apply frame_bind; [apply store_eof_frame|intros _]. apply frame_ret. }
    apply (preserves_elim _ _ _ _ _ Hf) in Hk.
    etransitivity; [|exact Hk]. repeat split; fields; eauto 10.
Qed.

Create HintDb frame.
#[local] Hint Resolve jni_frame LOG_frame GetEnv_frame AttachCurrentThread_frame
  CallIntMethod_frame ExceptionCheck_frame ExceptionDescribe_frame
  ExceptionClear_frame copy_out_frame store_eof_frame load_frame : frame.

Ltac frame :=
  repeat first
    [ solve [unfold LOGE, LOGW, LOGI, field; eauto with frame]
    | apply frame_ret
    | apply preserves_crash
    | match goal with
      | |- preserves _ (if ?b then _ else _) => destruct b
      | |- preserves _ (match ?x with _ => _ end) => destruct x
      end
    | apply frame_bind; [ |intros ?] ].

Lemma get_env_from_jvm_frame vm :
  preserves (callback_frame ctx) (get_env_from_jvm P vm).
Proof. unfold get_env_from_jvm. frame. Qed.

#[local] Hint Resolve get_env_from_jvm_frame : frame.

Lemma is_read_frame output read_size :
  preserves (callback_frame ctx) (is_read P ctx output read_size).
Proof. unfold is_read. frame. Qed.

Lemma is_eof_same s b s' : is_eof ctx s = Returns b s' → s' = s.
Proof.
  unfold is_eof, field, load, ret, bind.
  destruct (ctx =? 0); [congruence|].
  destruct (heap s !! ctx); congruence.
Qed.

(** close touches the block, the global references, the thread's
    attachment, the log and the trace, and nothing else. *)
Lemma is_close_outside s s' :
  is_close P ctx s = Returns tt s' → outside_loader s s'.
Proof.
  apply (preserves_elim outside_loader).
  unfold is_close, field, get_env_from_jvm, GetEnv, AttachCurrentThread,
    DeleteGlobalRef, store, free, load, LOGE, LOG, jni, modify, ret.
  repeat first
    [ match goal with
      | |- preserves _ (if ?b then _ else _) => destruct b
      | |- preserves _ (bind _ _) =>
          apply (preserves_bind outside_loader); [|intros ?]
      end
    | let H := fresh "H" in
      constructor; intros ? ? ? H; cbn beta in H; split_run H;
      inversion H; subst; repeat split ].
Qed.

End CallbackFrame.

(** ** The engine driving the stream loader *)

Section Serve.

Context (P : Platform).

Lemma is_read_freed inp output read_size s :
  inp ≠ 0 → heap s !! inp = None →
  is_read P inp output read_size s = Crashes UseAfterFree.
Proof.
  intros Hinp Hnone. unfold is_read. apply Z.eqb_neq in Hinp. rewrite Hinp.
  apply bind_Crashes. unfold load. now rewrite Hnone.
Qed.

Lemma is_eof_freed inp s :
  inp ≠ 0 → heap s !! inp = None → is_eof inp s = Crashes UseAfterFree.
Proof.
  intros Hinp Hnone. unfold is_eof. apply Z.eqb_neq in Hinp. rewrite Hinp.
  apply bind_Crashes. unfold field. apply bind_Crashes.
  unfold load. now rewrite Hnone.
Qed.

Lemma is_close_freed inp s :
  inp ≠ 0 → heap s !! inp = None → is_close P inp s = Crashes UseAfterFree.
Proof.
  intros Hinp Hnone. unfold is_close. apply Z.eqb_neq in Hinp. rewrite Hinp.
  apply bind_Crashes. unfold field. apply bind_Crashes.
  unfold load. now rewrite Hnone.
Qed.

(** Once the context is freed, whatever the engine asks next crashes. *)
Lemma serve_freed inp r rs got s :
  inp ≠ 0 → heap s !! inp = None →
  serve (stream_loader P inp) (r :: rs) got s = Crashes UseAfterFree.
Proof.
  intros Hinp Hnone. destruct r; simpl; apply bind_Crashes.
  - now apply is_read_freed.
  - now apply is_eof_freed.
  - now apply is_close_freed.
Qed.

(** While the engine drives the loader the context stays as it was but
    for its eof mark, until a close frees it; and a close is the last
    thing an engine can ask. *)
Lemma serve_open inp rs got s got' s' :
  inp ≠ 0 →
  serve (stream_loader P inp) rs got s = Returns got' s' →
  outside_loader s s'
  ∧ (callback_frame inp s s' ∨ heap s' !! inp = None).
Proof.
  intros Hinp. revert got s.
  induction rs as [|r rs IH]; intros got s H.
  { injection H as _ <-. split; [|left]; reflexivity. }
  destruct r; simpl in H; apply bind_inv in H as (a & s1 & H1 & H2).
  - pose proof (preserves_elim _ _ _ _ _ (is_read_frame P inp _ _) H1) as Hf.
    destruct (IH _ _ H2) as [Hout [Hf'|Hnone]].
    + split; [|left]; etransitivity; eauto using callback_frame_outside.
    + split; [|right; assumption].
      etransitivity; eauto using callback_frame_outside.
  - apply is_eof_same in H1 as ->. eauto.
  - destruct a. pose proof (is_close_outside _ _ _ _ H1) as Hout.
    apply is_close_frees in H1; [|assumption].
    destruct rs as [|r rs]; [injection H2 as _ <-; auto|].
    rewrite serve_freed in H2 by assumption. discriminate.
Qed.

(** An engine that never asks for a close leaves the context open. *)
Lemma serve_never_closed inp rs got s got' s' :
  ask_close ∉ rs →
  serve (stream_loader P inp) rs got s = Returns got' s' →
  callback_frame inp s s'.
Proof.
  revert got s.
  induction rs as [|r rs IH]; intros got s Hrs H.
  { injection H as _ <-. reflexivity. }
  apply not_elem_of_cons in Hrs as [Hr Hrs].
  destruct r; simpl in H; [| |congruence];
    apply bind_inv in H as (a & s1 & H1 & H2).
  - pose proof (preserves_elim _ _ _ _ _ (is_read_frame P inp _ _) H1) as Hf.
    etransitivity; eauto.
  - apply is_eof_same in H1 as ->. eauto.
Qed.

(** Closing a context that holds the references [held c], all of them
    made since the globals were [G], gives [G] back. *)
Lemma is_close_gives_back inp c G st :
  inp ≠ 0 → heap st !! inp = Some c → jvm c ≠ 0 → thread_env st ≠ 0 →
  NoDup (held c) →
  (∀ r, r ∈ held c → is_Some (globals st !! r) ∧ G !! r = None) →
  (∀ r, r ∉ held c → globals st !! r = G !! r) →
  ∃ s', is_close P inp st = Returns tt s'
        ∧ heap s' = delete inp (heap st)
        ∧ globals s' = G
        ∧ outside_loader st s'.
Proof.
  intros Hinp Hc Hjvm Hth Hnd Hheld Hrest.
  eexists. split; [apply (is_close_run P inp c); auto|].
  { intros r Hr. now apply Hheld. }
  fields. split; [reflexivity|]. split; [|repeat split].
  apply map_eq. intros r. rewrite lookup_foldr_delete.
  case_bool_decide as Hr.
  - symmetry. now apply Hheld.
  - now apply Hrest.
Qed.

End Serve.

(** ** The set-up of initContextFromInputStream *)

Section SetUp.

Context (P : Platform) (E : Engine).

(** Rewrites with what is known of the states named so far. *)
Ltac known :=
  fields;
  repeat match goal with
         | H : ?f ?x = _ |- context [?f ?x] => is_var x; rewrite H
         end;
  rewrite ?insert_insert_eq, ?local_deleted by assumption.

Ltac go H :=
  repeat (progress (cbn beta iota in H; cbn [negb orb] in H; fields_in H;
                    change (JNI_ERR =? 0) with false in H;
                    change (0 =? 0) with true in H;
                    rewrite ?lookup_insert_eq, ?insert_insert_eq in H)).

(** Names the step that made the set-up give up. *)
Ltac reason :=
  repeat match goal with
         | H : (_ =? 0) = true |- _ => apply Z.eqb_eq in H
         end;
  repeat first [left; solve [assumption|reflexivity|eexists; eassumption]
               |right];
  first [assumption|reflexivity].

(** A failure path after the stream reference was made: the close gives
    everything back. *)
Ltac abandon Ho Hclose :=
  match type of Ho with context [is_close _ _ ?st] =>
    let s' := fresh "s'" in let Hrun := fresh "Hrun" in
    let Hh := fresh "Hh" in let Hgl := fresh "Hgl" in
    let Hout := fresh "Hout" in
    destruct (Hclose st _ ltac:(known; reflexivity))
      as (s' & Hrun & Hh & Hgl & Hout);
      [discriminate|reflexivity|reflexivity|known; reflexivity..
      |rewrite Hrun in Ho];
    left; exists s'; split; [reason|]; split; [exact Ho|];
    split; [assumption|]; split; [assumption|];
    etransitivity; [|exact Hout]; repeat split; known; reflexivity
  end.

(** Lines 107 to 127.  On an attached thread the set-up either gives up,
    because the stream is null or one of its steps failed, and then the
    call returns the zero handle with the block freed and every reference
    it made deleted, or it reaches line 129 with the context set up and
    goes on from there. *)
Lemma initContextFromInputStream_set_up env clazz stream_object s :
  thread_env s ≠ 0 →
  (∃ s', (stream_object = 0 ∨ calloc_ok P = false ∨ GetJavaVM_ok P = false
          ∨ (∃ o, NewGlobalRef_ok P o = false) ∨ GetObjectClass_ok P = false
          ∨ method_id P "read" "([BII)I" = 0 ∨ NewByteArray_ok P = false)
         ∧ Java_com_negi_nativelib_WhisperLib_initContextFromInputStream
             P E env clazz stream_object s = Returns 0 s'
         ∧ heap s' = heap s ∧ globals s' = globals s ∧ outside_loader s s')
  ∨ (∃ inp s6, set_up stream_object s s6 inp ∧ outside_loader s s6
       ∧ Java_com_negi_nativelib_WhisperLib_initContextFromInputStream
           P E env clazz stream_object s
         = (let* ctx := whisper_init_with_params E (stream_loader P inp) in
            if ctx =? 0 then
              LOGE "whisper_init_with_params failed (InputStream)" >>
              is_close P inp >> ret 0
            else ret ctx) s6).
Proof.
  intros Hth.
  name_term (Java_com_negi_nativelib_WhisperLib_initContextFromInputStream
               P E env clazz stream_object s) o Ho.
  unfold Java_com_negi_nativelib_WhisperLib_initContextFromInputStream in Ho.
  destruct (stream_object =? 0) eqn:Hin.
  { left. eexists. split; [reason|]. split; [exact Ho|]. repeat split. }
  unfold calloc, GetJavaVM, NewGlobalRef, GetObjectClass, GetMethodID,
    DeleteLocalRef, NewByteArray, field, store, load, free, LOGE, LOG, jni,
    modify, ret, bind in Ho.
  go Ho.
  destruct (calloc_ok P) eqn:Hcalloc.
  2:{ left. eexists. split; [reason|]. split; [exact Ho|]. repeat split. }
  pose proof (new_handle_nonzero s) as Hinp.
  pose proof (new_handle_heap s) as Hfresh.
  name_term (new_handle s) inp Hnew. clear Hnew.
  apply Z.eqb_neq in Hinp as Hinp'. rewrite Hinp' in Ho. go Ho.
  destruct (GetJavaVM_ok P) eqn:Hvm; go Ho.
  2:{ left. eexists. split; [reason|]. split; [exact Ho|]. fields.
      rewrite delete_insert_id by assumption. repeat split. }
  rewrite Hin in Ho. go Ho.
  destruct (NewGlobalRef_ok P stream_object) eqn:Hglobal; go Ho.
  2:{ left. eexists. split; [reason|]. split; [exact Ho|]. fields.
      rewrite !insert_insert_eq, delete_insert_id by assumption.
      repeat split. }
  (* the global reference to the stream *)
  match type of Ho with context [new_handle ?st =? 0] =>
    name_term st s1 Hs1
  end.
  assert (R1 : heap s1 = <[inp := set_jvm (Z.pos (java_vm P)) zeroed]> (heap s)
               ∧ globals s1 = globals s ∧ thread_env s1 = thread_env s
               ∧ outside_loader s s1).
  { rewrite Hs1. unfold outside_loader. known. repeat split. }
  clear Hs1. destruct R1 as (Hh1 & Hg1 & Ht1 & Hl1 & He1 & Hf1 & Ha1 & Hu1 & Hp1).
  pose proof (new_handle_nonzero s1) as Hg.
  pose proof (new_handle_globals s1) as Hgf. rewrite Hg1 in Hgf.
  name_term (new_handle s1) g Hnew. clear Hnew.
  apply Z.eqb_neq in Hg as Hg'. rewrite Hg' in Ho.
  go Ho. rewrite ?Hh1 in Ho. go Ho.
  (* what a close on a failure path does from here *)
  assert (Hclose : ∀ st c,
    heap st = <[inp := c]> (heap s) →
    jvm c ≠ 0 → input_stream c = g → buffer_gl c = 0 →
    globals st = <[g := stream_object]> (globals s) →
    thread_env st = thread_env s →
    ∃ s', is_close P inp st = Returns tt s' ∧ heap s' = heap s
          ∧ globals s' = globals s ∧ outside_loader st s').
  { intros st c Hh Hjvm Hcg Hcb Hgl Ht.
    assert (Hheld : held c = [g]) by (unfold held; now rewrite Hcg, Hcb, Hg').
    destruct (is_close_gives_back P inp c (globals s) st)
      as (s' & Hrun & Hh' & Hrest); auto.
    - rewrite Hh. apply lookup_insert_eq.
    - congruence.
    - rewrite Hheld. apply NoDup_singleton.
    - rewrite Hheld. intros r Hr.
      apply list_elem_of_singleton in Hr as ->.
      rewrite Hgl, lookup_insert_eq. eauto.
    - rewrite Hheld. intros r Hr.
      rewrite Hgl, lookup_insert_ne; [reflexivity|].
      intros <-. apply Hr, list_elem_of_singleton. reflexivity.
    - exists s'. split; [assumption|]. split; [|assumption].
      rewrite Hh', Hh. now apply delete_insert_id. }
  (* the class of the stream and its read method *)
  destruct (GetObjectClass_ok P) eqn:Hclass; go Ho.
  2:{ abandon Ho Hclose. }
  match type of Ho with context [new_handle ?st =? 0] =>
    name_term st s2 Hs2
  end.
  assert (R2 : heap s2 = <[inp := set_input_stream g
                             (set_jvm (Z.pos (java_vm P)) zeroed)]> (heap s)
               ∧ globals s2 = <[g := stream_object]> (globals s)
               ∧ thread_env s2 = thread_env s
               ∧ outside_loader s s2).
  { rewrite Hs2. unfold outside_loader. known. repeat split. }
  clear Hs2 s1 Hh1 Hg1 Ht1 Hl1 He1 Hf1 Ha1 Hu1 Hp1.
  destruct R2 as (Hh2 & Hg2 & Ht2 & Hl2 & He2 & Hf2 & Ha2 & Hu2 & Hp2).
  pose proof (new_handle_nonzero s2) as Hcls.
  pose proof (new_handle_locals s2) as Hclsf. rewrite Hl2 in Hclsf.
  name_term (new_handle s2) cls Hnew. clear Hnew.
  apply Z.eqb_neq in Hcls as Hcls'. rewrite Hcls' in Ho. go Ho.
  pose proof (local_made cls (locals s)) as Hcls_in.
  destruct (method_id P "read" "([BII)I" =? 0) eqn:Hmid;
    repeat (progress (go Ho; rewrite ?Hh2, ?Hl2, ?Hcls_in, ?Hmid in Ho)).
  { abandon Ho Hclose. }
  (* the buffer *)
  destruct (NewByteArray_ok P) eqn:Harray; go Ho.
  2:{ abandon Ho Hclose. }
  match type of Ho with context [new_handle ?st =? 0] =>
    name_term st s3 Hs3
  end.
  assert (R3 : heap s3 = <[inp := set_buf_len (64 * 1024)
                             (set_mid_read (method_id P "read" "([BII)I")
                                (set_input_stream g
                                   (set_jvm (Z.pos (java_vm P)) zeroed)))]>
                           (heap s)
               ∧ globals s3 = <[g := stream_object]> (globals s)
               ∧ thread_env s3 = thread_env s
               ∧ outside_loader s s3).
  { rewrite Hs3. unfold outside_loader. known. repeat split. }
  clear Hs3 s2 Hh2 Hg2 Ht2 Hl2 He2 Hf2 Ha2 Hu2 Hp2.
  destruct R3 as (Hh3 & Hg3 & Ht3 & Hl3 & He3 & Hf3 & Ha3 & Hu3 & Hp3).
  pose proof (new_handle_nonzero s3) as Hbl.
  pose proof (new_handle_locals s3) as Hblf. rewrite Hl3 in Hblf.
  name_term (new_handle s3) bl Hnew. clear Hnew.
  apply Z.eqb_neq in Hbl as Hbl'. rewrite Hbl' in Ho. go Ho.
  pose proof (local_made bl (locals s)) as Hbl_in.
  destruct (NewGlobalRef_ok P bl) eqn:Hglobal2;
    repeat (progress (go Ho; rewrite ?Hh3, ?Hl3, ?Hbl_in in Ho)).
  2:{ abandon Ho Hclose. }
  (* the global reference to the buffer: the set-up is complete *)
  match type of Ho with context [new_handle ?st =? 0] =>
    name_term st s4 Hs4
  end.
  assert (R4 : heap s4 = <[inp := set_buf_len (64 * 1024)
                             (set_mid_read (method_id P "read" "([BII)I")
                                (set_input_stream g
                                   (set_jvm (Z.pos (java_vm P)) zeroed)))]>
                           (heap s)
               ∧ globals s4 = <[g := stream_object]> (globals s)
               ∧ thread_env s4 = thread_env s
               ∧ locals s4 = {[bl]} ∪ locals s
               ∧ engine_calls s4 = engine_calls s
               ∧ float_arrays s4 = float_arrays s ∧ assets s4 = assets s
               ∧ utf_chars s4 = utf_chars s ∧ pinned s4 = pinned s).
  { rewrite Hs4. unfold outside_loader. known. repeat split. }
  clear Hs4 s3 Hh3 Hg3 Ht3 Hl3 He3 Hf3 Ha3 Hu3 Hp3.
  destruct R4 as (Hh4 & Hg4 & Ht4 & Hl4 & He4 & Hf4 & Ha4 & Hu4 & Hp4).
  pose proof (new_handle_nonzero s4) as Hg2.
  pose proof (new_handle_globals s4) as Hg2f. rewrite Hg4 in Hg2f.
  name_term (new_handle s4) g2 Hnew. clear Hnew.
  apply Z.eqb_neq in Hg2 as Hg2'. rewrite Hg2' in Ho.
  repeat (progress (go Ho; rewrite ?Hh4, ?Hl4, ?Hbl_in in Ho)).
  apply lookup_insert_None in Hg2f as [Hg2f Hne].
  right. exists inp. eexists. split; [|split; [|exact Ho]].
  - unfold set_up. known.
    do 4 (split; [auto|]).
    eexists _, bl. split; [reflexivity|].
    cbn [jvm input_stream buffer_gl buf_len eof set_buffer_gl set_buf_len
         set_mid_read set_input_stream set_jvm zeroed].
    split; [reflexivity|]. repeat split; auto; discriminate.
  - repeat split; known; reflexivity.
Qed.

End SetUp.

(** ** initContextFromInputStream, whatever the platform and the engine *)

Section StreamLoader.

Context (P : Platform) (E : Engine).

(** The run from line 129 on, taken apart: the engine's call, what its
    requests made of the state, and what followed. *)
Lemma after_set_up inp s6 h s' :
  (let* ctx := whisper_init_with_params E (stream_loader P inp) in
   if ctx =? 0 then
     LOGE "whisper_init_with_params failed (InputStream)" >>
     is_close P inp >> ret 0
   else ret ctx) s6 = Returns h s' →
  ∃ got s7,
    serve (stream_loader P inp) (load_requests E) []
      (with_engine_calls (λ l, l ++ [whisper_init_with_params_call inp]) s6)
    = Returns got s7
    ∧ (if load_result E got =? 0
       then h = 0
            ∧ is_close P inp
                (with_log (λ l, l ++ [(ANDROID_LOG_ERROR,
                   "whisper_init_with_params failed (InputStream)")]) s7)
              = Returns tt s'
       else h = load_result E got ∧ s' = s7).
Proof.
  intros H. unfold whisper_init_with_params in H.
  apply bind_inv in H as (ctx & s7 & Hengine & Hrest).
  apply bind_inv in Hengine as ([] & s6' & Hcalled & Hengine).
  apply bind_inv in Hengine as (got & s7' & Hserve & Hret).
  injection Hcalled as <-. injection Hret as <- <-.
  exists got, s7'. split; [exact Hserve|].
  destruct (load_result E got =? 0).
  - apply bind_inv in Hrest as ([] & s8 & Hlog & Hrest).
    apply bind_inv in Hrest as ([] & s9 & Hclose & Hret).
    injection Hlog as <-. injection Hret as <- <-. auto.
  - injection Hrest as <- <-. auto.
Qed.

Lemma set_up_called stream_object s s6 inp f :
  set_up stream_object s s6 inp →
  set_up stream_object s (with_engine_calls f s6) inp.
Proof. intros H. exact H. Qed.

(** The close of a context that was set up from [s] and that the
    callbacks have left open gives back what the set-up took. *)
Lemma close_after_set_up stream_object inp s s6 s7 st :
  thread_env s ≠ 0 →
  set_up stream_object s s6 inp →
  callback_frame inp s6 s7 →
  heap st = heap s7 → globals st = globals s7 → thread_env st = thread_env s7 →
  ∃ s', is_close P inp st = Returns tt s'
        ∧ heap s' = heap s ∧ globals s' = globals s ∧ outside_loader st s'.
Proof.
  intros Hth (Hinp & Hfresh & Hl6 & Ht6 & c & b & Hh6 & Hg6 & Hjvm
              & Hcs & Hcb & Hne & Hfs & Hfb & _)
         (Hg7 & _ & _ & _ & _ & _ & _ & Ht7 & Hd7 & Hc7) Hh Hg Ht.
  destruct (Hc7 c) as (c' & Hc' & Hjvm' & Hcs' & _ & Hcb' & _).
  { rewrite Hh6. apply lookup_insert_eq. }
  assert (Hheld : held c' = [input_stream c; buffer_gl c]).
  { unfold held. rewrite Hcs', Hcb'.
    apply Z.eqb_neq in Hcs, Hcb. now rewrite Hcs, Hcb. }
  destruct (is_close_gives_back P inp c' (globals s) st)
    as (s' & Hrun & Hh' & Hg' & Hout); auto.
  - now rewrite Hh.
  - congruence.
  - rewrite Ht. apply Ht7. congruence.
  - rewrite Hheld. apply NoDup_cons. split; [|apply NoDup_singleton].
    intros Hin. apply list_elem_of_singleton in Hin. contradiction.
  - rewrite Hheld. intros r Hr. rewrite Hg, Hg7, Hg6.
    apply elem_of_cons in Hr as [->|Hr];
      [|apply list_elem_of_singleton in Hr as ->].
    + rewrite lookup_insert_ne, lookup_insert_eq by congruence. eauto.
    + rewrite lookup_insert_eq. eauto.
  - rewrite Hheld. intros r Hr. rewrite Hg, Hg7, Hg6.
    rewrite !lookup_insert_ne; [reflexivity| |];
      intros <-; apply Hr; [left|right; left].
  - exists s'. split; [assumption|]. split; [|split; assumption].
    rewrite Hh', Hh.
    rewrite <- (delete_insert_id (heap s) inp c) by assumption.
    rewrite <- Hh6. assumption.
Qed.

(** X2.  Whenever initContextFromInputStream returns the zero handle, on
    an attached thread, it has released what it acquired: the native
    heap, the global references and the local references are what they
    were before the call. *)
Theorem initContextFromInputStream_zero_releases env clazz input_stream s s' :
  thread_env s ≠ 0 →
  Java_com_negi_nativelib_WhisperLib_initContextFromInputStream P E
    env clazz input_stream s = Returns 0 s' →
  heap s' = heap s ∧ globals s' = globals s ∧ locals s' = locals s.
Proof.
  intros Hth Hrun.
  destruct (initContextFromInputStream_set_up P E env clazz input_stream s Hth)
    as [(s'' & _ & Hrun' & Hh & Hg & Hl & _)|(inp & s6 & Hset & Hout6 & Hrun')];
    rewrite Hrun in Hrun'.
  { injection Hrun' as ->. auto. }
  symmetry in Hrun'. apply after_set_up in Hrun' as (got & s7 & Hserve & Hrest).
  pose proof Hset as (Hinp & _).
  destruct (load_result E got =? 0) eqn:Hres.
  2:{ destruct Hrest as [Hz _]. apply Z.eqb_neq in Hres. congruence. }
  destruct Hrest as [_ Hclose].
  destruct (serve_open P inp _ _ _ _ _ Hinp Hserve) as [Hout [Hframe|Hfreed]].
  2:{ rewrite is_close_freed in Hclose by (fields; assumption). discriminate. }
  destruct (close_after_set_up input_stream inp s
              (with_engine_calls
                 (λ l, l ++ [whisper_init_with_params_call inp]) s6) s7
              (with_log (λ l, l ++ [(ANDROID_LOG_ERROR,
                 "whisper_init_with_params failed (InputStream)")]) s7))
    as (s9 & Hclose' & Hh9 & Hg9 & Hl9 & _);
    [assumption|apply set_up_called, Hset|assumption|reflexivity..|].
  rewrite Hclose' in Hclose. injection Hclose as <-.
  split; [assumption|]. split; [assumption|].
  rewrite Hl9. fields. destruct Hout as [Hl7 _]. fields_in Hl7.
  rewrite Hl7. apply Hout6.
Qed.


(** X4.  With an engine that closes the loader once, as its last
    request, a call that returns a handle has left nothing of the loader
    behind: the context block is freed and both global references are
    deleted by the engine's close, and the local references are what
    they were. *)
Theorem initContextFromInputStream_success_releases env clazz input_stream
    s h s' rs :
  thread_env s ≠ 0 →
  load_requests E = rs ++ [ask_close] → ask_close ∉ rs →
  Java_com_negi_nativelib_WhisperLib_initContextFromInputStream P E
    env clazz input_stream s = Returns h s' →
  h ≠ 0 →
  heap s' = heap s ∧ globals s' = globals s ∧ locals s' = locals s.
Proof.
  intros Hth Hreq Hrs Hrun Hh.
  destruct (initContextFromInputStream_set_up P E env clazz input_stream s Hth)
    as [(s'' & _ & Hrun' & _)|(inp & s6 & Hset & Hout6 & Hrun')];
    rewrite Hrun in Hrun'.
  { injection Hrun' as -> _. congruence. }
  symmetry in Hrun'. apply after_set_up in Hrun' as (got & s7 & Hserve & Hrest).
  destruct (load_result E got =? 0) eqn:Hres; [destruct Hrest; congruence|].
  destruct Hrest as [_ ->].
  rewrite Hreq, serve_app in Hserve.
  apply bind_inv in Hserve as (got' & s7a & Hserve & Hlast).
  change (serve (stream_loader P inp) [ask_close] got' s7a)
    with ((is_close P inp >> ret got') s7a) in Hlast.
  apply bind_inv in Hlast as ([] & s7b & Hclosed & Hret).
  injection Hret as _ <-.
  pose proof (serve_never_closed P inp _ _ _ _ _ Hrs Hserve) as Hframe.
  destruct (close_after_set_up input_stream inp s
              (with_engine_calls
                 (λ l, l ++ [whisper_init_with_params_call inp]) s6) s7a s7a)
    as (s9 & Hclose' & Hh9 & Hg9 & Hl9 & _);
    [assumption|apply set_up_called, Hset|assumption|reflexivity..|].
  rewrite Hclose' in Hclosed. injection Hclosed as <-.
  split; [assumption|]. split; [assumption|].
  rewrite Hl9. destruct Hframe as (_ & Hl7 & _). fields_in Hl7.
  rewrite Hl7. apply Hout6.
Qed.

(** X5.  Every run that returns, on an attached thread, has called the
    engine's initialisation at most once, with a context block that was
    not allocated before the call; a handle is only ever returned after
    that call; and the local references, the pinned arrays and the
    character buffers are what they were. *)
Theorem initContextFromInputStream_calls_engine_once env clazz input_stream
    s h s' :
  thread_env s ≠ 0 →
  Java_com_negi_nativelib_WhisperLib_initContextFromInputStream P E
    env clazz input_stream s = Returns h s' →
  locals s' = locals s ∧ pinned s' = pinned s ∧ utf_chars s' = utf_chars s
  ∧ ((h = 0 ∧ engine_calls s' = engine_calls s)
     ∨ ∃ inp, inp ≠ 0 ∧ heap s !! inp = None
              ∧ engine_calls s'
                = engine_calls s ++ [whisper_init_with_params_call inp]).
Proof.
  intros Hth Hrun.
  destruct (initContextFromInputStream_set_up P E env clazz input_stream s Hth)
    as [(s'' & _ & Hrun' & _ & _ & Hout)|(inp & s6 & Hset & Hout6 & Hrun')];
    rewrite Hrun in Hrun'.
  { injection Hrun' as -> ->.
    destruct Hout as (Hl & He & _ & _ & Hu & Hp). auto 10. }
  symmetry in Hrun'. apply after_set_up in Hrun' as (got & s7 & Hserve & Hrest).
  pose proof Hset as (Hinp & Hfresh & _).
  destruct (serve_open P inp _ _ _ _ _ Hinp Hserve) as [Hout _].
  assert (Hout' : outside_loader s7 s').
  { destruct (load_result E got =? 0).
    - destruct Hrest as [_ Hclose]. apply is_close_outside in Hclose.
      etransitivity; [|exact Hclose]. repeat split.
    - destruct Hrest as [_ ->]. reflexivity. }
  destruct Hout6 as (Hl6 & He6 & _ & _ & Hu6 & Hp6).
  destruct Hout as (Hl7 & He7 & _ & _ & Hu7 & Hp7).
  destruct Hout' as (Hl & He & _ & _ & Hu & Hp).
  fields_in Hl7. fields_in He7. fields_in Hu7. fields_in Hp7.
  split; [congruence|]. split; [congruence|]. split; [congruence|].
  right. exists inp. split; [assumption|]. split; [assumption|]. congruence.
Qed.

End StreamLoader.

(** ** The execution context, case by case *)

Section Env.

Context (P : Platform).

Lemma get_env_from_jvm_attached vm s :
  vm ≠ 0 → thread_env s ≠ 0 →
  get_env_from_jvm P vm s
  = Returns (thread_env s) (with_jni_calls (λ l, l ++ [GetEnv_call]) s).
Proof.
  intros Hvm Hth. apply Z.eqb_neq in Hvm, Hth.
  unfold get_env_from_jvm, GetEnv, jni, modify, ret, bind.
  rewrite Hvm. fields. rewrite Hth. reflexivity.
Qed.

Lemma get_env_from_jvm_detached vm s :
  vm ≠ 0 → thread_env s = 0 →
  get_env_from_jvm P vm s
  = if AttachCurrentThread_env P =? 0
    then Returns 0
           (with_log (λ l, l ++ [(ANDROID_LOG_ERROR, "AttachCurrentThread failed")])
              (with_jni_calls (λ l, l ++ [GetEnv_call; AttachCurrentThread_call]) s))
    else Returns (AttachCurrentThread_env P)
           (with_thread_env (λ _, AttachCurrentThread_env P)
              (with_jni_calls (λ l, l ++ [GetEnv_call; AttachCurrentThread_call]) s)).
Proof.
  intros Hvm Hth. apply Z.eqb_neq in Hvm.
  unfold get_env_from_jvm, GetEnv, AttachCurrentThread, LOGE, LOG, jni,
    modify, ret, bind.
  rewrite Hvm. fields. rewrite Hth. simpl.
  destruct (AttachCurrentThread_env P =? 0); simpl;
    same_state; now rewrite <- app_assoc.
Qed.

(** X6.  [get_env_from_jvm] always returns. It returns NULL exactly when
    the VM pointer is NULL or the thread is detached and cannot be
    attached; with a NULL VM it makes no JNI call at all; on an attached
    thread it asks GetEnv only and returns the thread's env; and an env
    it returns is the env the thread is attached with afterwards. *)
Theorem get_env_from_jvm_outcomes vm s :
  ∃ env s', get_env_from_jvm P vm s = Returns env s'
    ∧ (env = 0 ↔ vm = 0 ∨ (thread_env s = 0 ∧ AttachCurrentThread_env P = 0))
    ∧ (vm = 0 → s' = s)
    ∧ (vm ≠ 0 → thread_env s ≠ 0 →
       env = thread_env s ∧ jni_calls s' = jni_calls s ++ [GetEnv_call])
    ∧ (env ≠ 0 → thread_env s' = env).
Proof.
  destruct (decide (vm = 0)) as [->|Hvm].
  { exists 0, s. split; [reflexivity|]. repeat split; auto; congruence. }
  destruct (decide (thread_env s = 0)) as [Hth|Hth].
  - rewrite (get_env_from_jvm_detached vm s Hvm Hth).
    destruct (AttachCurrentThread_env P =? 0) eqn:Hat.
    + apply Z.eqb_eq in Hat. eexists _, _. split; [reflexivity|].
      repeat split; auto; congruence.
    + apply Z.eqb_neq in Hat. eexists _, _. split; [reflexivity|].
      repeat split; try congruence. intros [?|[_ ?]]; congruence.
  - rewrite (get_env_from_jvm_attached vm s Hvm Hth).
    eexists _, _. split; [reflexivity|].
    repeat split; try congruence. intros [?|[? _]]; congruence.
Qed.

(** X7.  Once [get_env_from_jvm] has given an env, the thread stays
    attached: a later call, for any VM, gives the same env with a GetEnv
    call only and never attaches again. *)
Theorem get_env_from_jvm_attaches_once vm vm' s env s' :
  get_env_from_jvm P vm s = Returns env s' → env ≠ 0 → vm' ≠ 0 →
  get_env_from_jvm P vm' s'
  = Returns env (with_jni_calls (λ l, l ++ [GetEnv_call]) s').
Proof.
  intros Hrun Henv Hvm'.
  assert (Hatt : thread_env s' = env).
  { destruct (decide (vm = 0)) as [->|Hvm]; [injection Hrun as <- _; congruence|].
    destruct (decide (thread_env s = 0)) as [Hth|Hth].
    - rewrite (get_env_from_jvm_detached vm s Hvm Hth) in Hrun.
      destruct (AttachCurrentThread_env P =? 0);
        injection Hrun as <- <-; [congruence|reflexivity].
    - rewrite (get_env_from_jvm_attached vm s Hvm Hth) in Hrun.
      injection Hrun as <- <-. reflexivity. }
  rewrite <- Hatt at 1. apply get_env_from_jvm_attached; congruence.
Qed.

End Env.

(** ** More on the callbacks of the stream loader *)

Section MoreCallbacks.

Context (P : Platform).

Lemma is_eof_run ctx c s :
  ctx ≠ 0 → heap s !! ctx = Some c →
  is_eof ctx s = Returns (negb (eof c =? 0)) s.
Proof.
  intros Hctx Hc. unfold is_eof, field, load, ret, bind.
  apply Z.eqb_neq in Hctx. now rewrite Hctx, Hc.
Qed.

(** The guards of lines 61 to 64, passed. *)
Lemma is_read_guards ctx c output read_size s :
  ctx ≠ 0 → heap s !! ctx = Some c →
  jvm c ≠ 0 → input_stream c ≠ 0 → buffer_gl c ≠ 0 →
  is_read P ctx output read_size s
  = (let* env := get_env_from_jvm P (jvm c) in
     if env =? 0 then ret (0, output) else
     let chunk := to_jint (if read_size >? to_size_t (buf_len c)
                           then to_size_t (buf_len c) else read_size) in
     let* n := CallIntMethod (input_stream c) (mid_read c) (buffer_gl c) 0 chunk in
     let* exc := ExceptionCheck in
     if exc then
       LOGE "Exception in InputStream.read()" >> ExceptionDescribe >>
       ExceptionClear >> store ctx (set_eof 1) >> ret (0, output)
     else if n <=? 0 then store ctx (set_eof 1) >> ret (0, output)
     else
       let* ptr := GetByteArrayElements P (buffer_gl c) in
       match ptr with
       | None =>
           LOGE "GetByteArrayElements returned NULL" >>
           store ctx (set_eof 1) >> ret (0, output)
       | Some elems =>
           let* output' := memcpy output elems n in
           ReleaseByteArrayElements (buffer_gl c) elems JNI_ABORT >>
           ret (n, output')
       end) s.
Proof.
  intros Hctx Hc Hjvm His Hbuf. unfold is_read.
  apply Z.eqb_neq in Hctx, Hjvm, His, Hbuf. rewrite Hctx.
  rewrite (bind_Returns _ _ s c s) by (unfold load; now rewrite Hc).
  rewrite Hjvm, His, Hbuf. reflexivity.
Qed.

(** X8.  A read on a populated context whose thread is detached and
    cannot be attached returns zero bytes without asking the stream, and
    without marking the context exhausted: [is_eof] answers afterwards
    what it answered before. *)
Theorem is_read_without_env ctx c output read_size s :
  ctx ≠ 0 → heap s !! ctx = Some c →
  jvm c ≠ 0 → input_stream c ≠ 0 → buffer_gl c ≠ 0 →
  thread_env s = 0 → AttachCurrentThread_env P = 0 →
  ∃ s', is_read P ctx output read_size s = Returns (0, output) s'
    ∧ heap s' = heap s ∧ stream s' = stream s
    ∧ reads_requested (jni_calls s') = reads_requested (jni_calls s)
    ∧ is_eof ctx s' = Returns (negb (eof c =? 0)) s'.
Proof.
  intros Hctx Hc Hjvm His Hbuf Hth Hat.
  rewrite (is_read_guards ctx c) by assumption.
  erewrite bind_Returns
    by (rewrite get_env_from_jvm_detached, Hat by assumption; reflexivity).
  eexists. split; [reflexivity|]. fields.
  split; [reflexivity|]. split; [reflexivity|].
  split; [rewrite reads_requested_app; apply app_nil_r|].
  now apply is_eof_run.
Qed.

Lemma CallIntMethod_heap obj mid buf off len s n s' :
  CallIntMethod obj mid buf off len s = Returns n s' →
  heap s' = heap s ∧ jni_calls s'
                     = jni_calls s ++ [CallIntMethod_call obj mid buf off len].
Proof.
  unfold CallIntMethod, jni, modify, bind. intros H. fields_in H.
  split_run H; injection H as _ <-; split; reflexivity.
Qed.

(** X9.  A read on a populated context, on a thread that is attached or
    can be, never returns a negative count; it returns zero only with
    the caller's buffer untouched and the context marked exhausted, so
    that [is_eof] then answers true; and a read that returns bytes
    leaves the eof mark as it was. *)
Theorem is_read_zero_marks_exhausted ctx c output read_size s n out s' :
  ctx ≠ 0 → heap s !! ctx = Some c →
  jvm c ≠ 0 → input_stream c ≠ 0 → buffer_gl c ≠ 0 →
  thread_env s ≠ 0 ∨ AttachCurrentThread_env P ≠ 0 →
  is_read P ctx output read_size s = Returns (n, out) s' →
  0 ≤ n
  ∧ (n = 0 → out = output ∧ heap s' = <[ctx := set_eof 1 c]> (heap s)
             ∧ is_eof ctx s' = Returns true s')
  ∧ (0 < n → heap s' = heap s
             ∧ is_eof ctx s' = Returns (negb (eof c =? 0)) s').
Proof.
  intros Hctx Hc Hjvm His Hbuf Hth H.
  rewrite (is_read_guards ctx c) in H by assumption.
  destruct (get_env_from_jvm_spec P (jvm c) s)
    as (env & s1 & Henv & Hsame & _ & Hnz).
  specialize (Hnz Hjvm Hth). destruct Hsame as (Hh1 & _).
  rewrite (bind_Returns _ _ _ _ _ Henv) in H.
  apply Z.eqb_neq in Hnz. rewrite Hnz in H. cbn zeta in H.
  apply bind_inv in H as (n0 & s2 & Hcall & H).
  apply CallIntMethod_heap in Hcall as [Hh2 _].
  apply bind_inv in H as (exc & s3 & Hexc & H).
  unfold ExceptionCheck, jni, modify, gets, bind in Hexc.
  injection Hexc as _ <-.
  assert (Hc3 : ∀ f, heap (with_jni_calls f s2) !! ctx = Some c)
    by (intros f; fields; now rewrite Hh2, Hh1).
  assert (Hmarked : ∀ st, heap st = <[ctx := set_eof 1 c]> (heap s) →
            is_eof ctx st = Returns true st).
  { intros st Hst. apply (is_eof_exhausted ctx c); [assumption|].
    rewrite Hst. apply lookup_insert_eq. }
  destruct exc.
  { unfold LOGE, LOG, ExceptionDescribe, ExceptionClear, jni, modify, store,
      ret, bind in H. fields_in H. rewrite Hh2, Hh1, Hc in H.
    injection H as <- <- <-. split; [lia|]. split; [|lia]. intros _.
    split; [reflexivity|]. fields. rewrite Hh2, Hh1.
    split; [reflexivity|]. apply Hmarked. fields. now rewrite Hh2, Hh1. }
  destruct (Z.leb_spec n0 0) as [Hn0|Hn0].
  { unfold store, ret, bind in H. rewrite Hc3 in H.
    injection H as <- <- <-. split; [lia|]. split; [|lia]. intros _.
    split; [reflexivity|]. fields. rewrite Hh2, Hh1.
    split; [reflexivity|]. apply Hmarked. fields. now rewrite Hh2, Hh1. }
  apply bind_inv in H as (ptr & s4 & Hget & H).
  unfold GetByteArrayElements, jni, modify, bind in Hget. fields_in Hget.
  destruct (globals s2 !! buffer_gl c ≫= _); [|discriminate].
  destruct (GetByteArrayElements_ok P); injection Hget as <- <-.
  - apply bind_inv in H as (output' & s5 & Hcopy & H).
    unfold memcpy in Hcopy. destruct (_ && _); [|discriminate].
    injection Hcopy as _ <-.
    unfold ReleaseByteArrayElements, jni, modify, ret, bind in H.
    fields_in H. destruct (globals s2 !! buffer_gl c); [|discriminate].
    change (JNI_ABORT =? JNI_ABORT) with true in H.
    change (JNI_ABORT =? JNI_COMMIT) with false in H.
    injection H as <- _ <-. split; [lia|]. split; [lia|]. intros _.
    fields. rewrite Hh2, Hh1. split; [reflexivity|].
    apply is_eof_run; [assumption|]. fields. now rewrite Hh2, Hh1.
  - unfold LOGE, LOG, modify, store, ret, bind in H. fields_in H.
    rewrite Hh2, Hh1, Hc in H.
    injection H as <- <- <-. split; [lia|]. split; [|lia]. intros _.
    split; [reflexivity|]. fields. rewrite Hh2, Hh1.
    split; [reflexivity|]. apply Hmarked. fields. now rewrite Hh2, Hh1.
Qed.

(** X10.  Whatever a read does, it touches none of the resources the
    file manages: the reference tables, the pinned arrays, the character
    buffers, the open assets and the engine's trace are what they were,
    and of the native heap only the context's own block may have
    changed, in its eof mark alone. *)
Theorem is_read_keeps_resources ctx output read_size s r s' :
  is_read P ctx output read_size s = Returns r s' →
  globals s' = globals s ∧ locals s' = locals s
  ∧ pinned s' = pinned s ∧ utf_chars s' = utf_chars s
  ∧ assets s' = assets s ∧ float_arrays s' = float_arrays s
  ∧ engine_calls s' = engine_calls s
  ∧ (∀ a, a ≠ ctx → heap s' !! a = heap s !! a)
  ∧ (∀ c, heap s !! ctx = Some c →
       ∃ e, heap s' !! ctx = Some (set_eof e c)).
Proof.
  intros H.
  destruct (preserves_elim _ _ _ _ _ (is_read_frame P ctx output read_size) H)
    as (Hg & Hl & He & Hf & Ha & Hu & Hp & _ & Hd & Hc).
  do 7 (split; [assumption|]). split.
  - intros a Ha'.
    rewrite <- (lookup_delete_ne (heap s') ctx a),
            <- (lookup_delete_ne (heap s) ctx a) by congruence.
    now rewrite Hd.
  - intros c Hcc. destruct (Hc c Hcc) as (c' & Hc' & E1 & E2 & E3 & E4 & E5).
    exists (eof c'). rewrite Hc'. f_equal.
    destruct c, c'. simpl in *. unfold set_eof. simpl. congruence.
Qed.


(** X12.  A close on a thread that is detached and cannot be attached
    frees the block and deletes no reference: the global references the
    context held stay in the table. *)
Theorem is_close_without_env ctx c s :
  ctx ≠ 0 → heap s !! ctx = Some c → jvm c ≠ 0 →
  thread_env s = 0 → AttachCurrentThread_env P = 0 →
  ∃ s', is_close P ctx s = Returns tt s'
    ∧ heap s' = delete ctx (heap s)
    ∧ globals s' = globals s
    ∧ deleted (jni_calls s') = deleted (jni_calls s).
Proof.
  intros Hctx Hc Hjvm Hth Hat.
  unfold is_close. apply Z.eqb_neq in Hctx. rewrite Hctx.
  rewrite (bind_Returns _ _ s (jvm c) s)
    by (unfold field, load, ret, bind; now rewrite Hc).
  erewrite bind_Returns
    by (rewrite get_env_from_jvm_detached, Hat by assumption; reflexivity).
  change (0 =? 0) with true. cbn iota.
  unfold free, ret, bind. fields. rewrite Hctx, Hc.
  eexists. split; [reflexivity|]. fields.
  split; [reflexivity|]. split; [reflexivity|].
  rewrite deleted_app. apply app_nil_r.
Qed.

(** X13.  A context is dead once it has been closed: after a close that
    returned, a read, an end-of-stream test or another close on the same
    context reads the freed block, on every platform and from every
    state. *)
Theorem stream_loader_dead_after_close ctx s s' output read_size :
  ctx ≠ 0 → is_close P ctx s = Returns tt s' →
  is_read P ctx output read_size s' = Crashes UseAfterFree
  ∧ is_eof ctx s' = Crashes UseAfterFree
  ∧ is_close P ctx s' = Crashes UseAfterFree.
Proof.
  intros Hctx H. pose proof (is_close_frees P _ _ _ Hctx H) as Hfreed.
  split; [|split].
  - now apply is_read_freed.
  - now apply is_eof_freed.
  - now apply is_close_freed.
Qed.

End MoreCallbacks.

(** ** The asset loader *)

Section AssetLoader.

Context (P : Platform) (E : Engine).

#[local] Abbreviation initContextFromAsset :=
  (Java_com_negi_nativelib_WhisperLib_initContextFromAsset P E).

(** *** Its callbacks *)

Lemma asset_read_run asset output read_size s r s' :
  asset_read P asset output read_size s = Returns r s' →
  ∃ rest, assets s !! asset = Some rest
          ∧ ((AAsset_read_ok P = true
              ∧ s' = with_assets <[asset := drop (Z.to_nat (fst r)) rest]> s
              ∧ fst r = Z.max 0 (Z.min read_size (Z.of_nat (length rest)))
              ∧ snd r = take (Z.to_nat (fst r)) rest
                        ++ drop (Z.to_nat (fst r)) output)
             ∨ (AAsset_read_ok P = false ∧ s' = s ∧ r = (0, output))).
Proof.
  unfold asset_read, AAsset_read, ret, bind. intros H.
  destruct (assets s !! asset) as [rest|]; [|discriminate].
  exists rest. split; [reflexivity|].
  destruct (AAsset_read_ok P); [left|right; injection H as <- <-; auto].
  destruct (_ <=? Z.of_nat (length output)); [|discriminate].
  injection H as <- <-. split; [reflexivity|]. cbn [fst snd].
  destruct (Z.gtb_spec (Z.min read_size (Z.of_nat (length rest))) 0) as [Hk|Hk].
  - rewrite Z.max_r by lia. auto.
  - rewrite Z.max_l by lia.
    replace (Z.to_nat (Z.min read_size (Z.of_nat (length rest)))) with 0%nat
      by lia.
    auto.
Qed.

Lemma asset_eof_run asset s b s' :
  asset_eof asset s = Returns b s' →
  s' = s ∧ ∃ rest, assets s !! asset = Some rest ∧ b = bool_decide (rest = []).
Proof.
  unfold asset_eof, AAsset_getRemainingLength64, ret, bind. intros H.
  destruct (assets s !! asset) as [rest|]; [|discriminate].
  injection H as <- <-. split; [reflexivity|]. exists rest.
  split; [reflexivity|]. destruct rest; reflexivity.
Qed.

Lemma asset_close_run asset s s' :
  asset ≠ 0 → asset_close asset s = Returns tt s' →
  is_Some (assets s !! asset) ∧ s' = with_assets (delete asset) s.
Proof.
  unfold asset_close, AAsset_close. intros Hne H.
  apply Z.eqb_neq in Hne. rewrite Hne in H.
  destruct (assets s !! asset); [|discriminate].
  injection H as <-. eauto.
Qed.

(** The engine driving the asset loader changes the open assets only. *)
Lemma serve_asset_frame asset rs got s got' s' :
  asset ≠ 0 →
  serve (asset_loader P asset) rs got s = Returns got' s' →
  s' = with_assets (λ _, assets s') s.
Proof.
  intros Hne. revert got s.
  induction rs as [|r rs IH]; intros got s H.
  { injection H as _ <-. now destruct s. }
  destruct r; simpl in H; apply bind_inv in H as (a & s1 & H1 & H2).
  - apply asset_read_run in H1 as (rest & _ & [(_ & -> & _)|(_ & -> & _)]);
      [|eauto].
    rewrite (IH _ _ H2). apply State_eq; reflexivity.
  - apply asset_eof_run in H1 as [-> _]. eauto.
  - destruct a. apply asset_close_run in H1 as [_ ->]; [|assumption].
    rewrite (IH _ _ H2). apply State_eq; reflexivity.
Qed.

(** While it is not asked to close, the asset stays open and no other
    asset is touched. *)
Lemma serve_asset_open asset rs got s got' s' :
  ask_close ∉ rs →
  serve (asset_loader P asset) rs got s = Returns got' s' →
  delete asset (assets s') = delete asset (assets s)
  ∧ (is_Some (assets s !! asset) → is_Some (assets s' !! asset)).
Proof.
  revert got s.
  induction rs as [|r rs IH]; intros got s Hrs H.
  { injection H as _ <-. auto. }
  apply not_elem_of_cons in Hrs as [Hr Hrs].
  destruct r; simpl in H; [| |congruence];
    apply bind_inv in H as (a & s1 & H1 & H2).
  - apply asset_read_run in H1 as (rest & _ & [(_ & -> & _)|(_ & -> & _)]);
      [|eauto].
    destruct (IH _ _ Hrs H2) as [Hd Ho]. fields_in Hd. fields_in Ho.
    split; [now rewrite Hd, delete_insert_eq|].
    intros _. apply Ho. rewrite lookup_insert_eq. eauto.
  - apply asset_eof_run in H1 as [-> _]. eauto.
Qed.


(** *** whisper_init_from_asset and initContextFromAsset *)

(** The run of whisper_init_from_asset on a path, taken apart. *)
Lemma whisper_init_from_asset_run env assetManager path s h s' :
  whisper_init_from_asset P E env assetManager (Some path) s = Returns h s' →
  (h = 0 ∧ ∃ l, s' = with_log (λ _, l) s)
  ∨ ∃ asset bytes s1 got,
      asset ≠ 0 ∧ assets s !! asset = None
      ∧ asset_files P path = Some bytes
      ∧ s1 = with_engine_calls
               (λ l, l ++ [whisper_init_with_params_call asset])
               (with_assets <[asset := bytes]>
                  (with_log (λ l, l ++ [(ANDROID_LOG_INFO,
                     "Loading model from asset '" +:+ path +:+ "'")]) s))
      ∧ serve (asset_loader P asset) (load_requests E) [] s1 = Returns got s'
      ∧ h = load_result E got.
Proof.
  unfold whisper_init_from_asset, AAssetManager_fromJava, AAssetManager_open,
    LOGI, LOGE, LOG, modify, ret.
  destruct (assetManager =? 0).
  { intros [= <- <-]. left. split; [reflexivity|]. exists (log s).
    now destruct s. }
  intros H.
  apply bind_inv in H as ([] & s0 & [= <-] & H).
  apply bind_inv in H as (mgr & s0 & [= <- <-] & H).
  destruct (AAssetManager_fromJava_result P assetManager =? 0).
  { injection H as <- <-. left. split; [reflexivity|]. eexists.
    apply State_eq; reflexivity. }
  apply bind_inv in H as (asset & s1 & Hopen & H). fields_in Hopen.
  destruct (asset_files P path) as [bytes|] eqn:Hfile.
  2:{ injection Hopen as <- <-. change (0 =? 0) with true in H.
      apply bind_inv in H as ([] & s2 & [= <-] & [= <- <-]).
      left. split; [reflexivity|]. eexists. apply State_eq; reflexivity. }
  match type of Hopen with context [new_handle ?st] =>
    pose proof (new_handle_nonzero st) as Hne;
    pose proof (new_handle_assets st) as Hfresh;
    name_term (new_handle st) a Hnew; clear Hnew
  end.
  injection Hopen as <- <-. apply Z.eqb_neq in Hne as Hne'. rewrite Hne' in H.
  unfold whisper_init_with_params, called, modify, ret in H.
  apply bind_inv in H as ([] & s2 & [= <-] & H).
  apply bind_inv in H as (got & s3 & Hserve & [= <- <-]).
  right. exists a, bytes. eexists _, got.
  split; [assumption|]. split; [exact Hfresh|]. split; [reflexivity|].
  split; [reflexivity|]. split; [exact Hserve|reflexivity].
Qed.

(** The run of initContextFromAsset on a string, taken apart. *)
Lemma initContextFromAsset_run env clazz assetManager str s h s' :
  initContextFromAsset env clazz assetManager (Some str) s = Returns h s' →
  (GetStringUTFChars_ok P = false ∧ h = 0
   ∧ s' = with_jni_calls (λ l, l ++ [GetStringUTFChars_call str]) s)
  ∨ ∃ s2,
      GetStringUTFChars_ok P = true
      ∧ whisper_init_from_asset P E env assetManager (Some str)
          (with_utf_chars (λ l, str :: l)
             (with_jni_calls (λ l, l ++ [GetStringUTFChars_call str]) s))
        = Returns h s2
      ∧ s' = with_utf_chars (release_one str)
               (with_jni_calls (λ l, l ++ [ReleaseStringUTFChars_call str]) s2).
Proof.
  unfold Java_com_negi_nativelib_WhisperLib_initContextFromAsset,
    GetStringUTFChars, ReleaseStringUTFChars, jni, modify, ret.
  intros H. apply bind_inv in H as (path & s1 & Hget & H).
  apply bind_inv in Hget as ([] & s0 & [= <-] & Hget).
  destruct (GetStringUTFChars_ok P).
  - injection Hget as <- <-. right.
    apply bind_inv in H as (ctx & s2 & Hinit & H).
    apply bind_inv in H as ([] & s3 & Hrel & [= <- <-]).
    apply bind_inv in Hrel as ([] & s4 & [= <-] & [= <-]).
    exists s2. auto.
  - injection Hget as <- <-. injection H as <- <-. left. auto.
Qed.

(** X15.  initContextFromAsset, whenever it returns, has given back the
    characters of the entry name it took and has left the native heap,
    the reference tables and the pinned arrays as they were; it has
    called the engine's initialisation at most once, with an asset that
    was not open before, and it returns a handle only after that call. *)
Theorem initContextFromAsset_gives_back env clazz assetManager
    asset_path_str s h s' :
  Java_com_negi_nativelib_WhisperLib_initContextFromAsset P E
    env clazz assetManager asset_path_str s = Returns h s' →
  utf_chars s' = utf_chars s ∧ pinned s' = pinned s
  ∧ heap s' = heap s ∧ globals s' = globals s ∧ locals s' = locals s
  ∧ ((h = 0 ∧ engine_calls s' = engine_calls s)
     ∨ ∃ asset, asset ≠ 0 ∧ assets s !! asset = None
                ∧ engine_calls s'
                  = engine_calls s ++ [whisper_init_with_params_call asset]).
Proof.
  destruct asset_path_str as [str|]; [|intros [= <- <-]; auto 10].
  intros H.
  apply initContextFromAsset_run in H
    as [(_ & -> & ->)|(s2 & _ & Hinit & ->)]; [fields; auto 10|].
  apply whisper_init_from_asset_run in Hinit
    as [(-> & l & ->)|(asset & bytes & s1 & got & Hne & Hfresh & _ & -> & Hserve & ->)].
  { fields. rewrite release_one_head. auto 10. }
  apply serve_asset_frame in Hserve as ->; [|assumption].
  fields. rewrite release_one_head. do 5 (split; [reflexivity|]).
  right. exists asset. auto.
Qed.

(** X16.  With an engine that closes the loader once, as its last
    request, initContextFromAsset leaves no asset open, whether the
    engine found a model or not: the open assets are what they were
    before the call. *)
Theorem initContextFromAsset_asset_closed env clazz assetManager
    asset_path_str s h s' rs :
  load_requests E = rs ++ [ask_close] → ask_close ∉ rs →
  Java_com_negi_nativelib_WhisperLib_initContextFromAsset P E
    env clazz assetManager asset_path_str s = Returns h s' →
  assets s' = assets s.
Proof.
  intros Hreq Hrs.
  destruct asset_path_str as [str|]; [|intros [= <- <-]; auto 10].
  intros H.
  apply initContextFromAsset_run in H
    as [(_ & -> & ->)|(s2 & _ & Hinit & ->)]; [reflexivity|].
  apply whisper_init_from_asset_run in Hinit
    as [(-> & l & ->)|(asset & bytes & s1 & got & Hne & Hfresh & _ & -> & Hserve & ->)];
    [reflexivity|].
  rewrite Hreq, serve_app in Hserve.
  apply bind_inv in Hserve as (got' & s3 & Hserve & Hlast).
  change (serve (asset_loader P asset) [ask_close] got' s3)
    with ((asset_close asset >> ret got') s3) in Hlast.
  apply bind_inv in Hlast as ([] & s4 & Hclose & [= _ <-]).
  apply asset_close_run in Hclose as [_ ->]; [|assumption].
  apply serve_asset_open in Hserve as [Hd _]; [|assumption].
  fields. fields_in Hd. rewrite Hd, delete_insert_eq.
  now apply delete_id.
Qed.

(** X17.  The file itself never closes the asset, not even when the
    engine fails: with an engine that does not ask for a close, every
    call that reached the engine returns with the asset it opened still
    open. *)
Theorem initContextFromAsset_leaves_asset_open env clazz assetManager
    asset_path_str s h s' :
  ask_close ∉ load_requests E →
  Java_com_negi_nativelib_WhisperLib_initContextFromAsset P E
    env clazz assetManager asset_path_str s = Returns h s' →
  engine_calls s' ≠ engine_calls s →
  ∃ asset, assets s !! asset = None ∧ is_Some (assets s' !! asset)
           ∧ ∀ a, a ≠ asset → assets s' !! a = assets s !! a.
Proof.
  intros Hreq.
  destruct asset_path_str as [str|]; [|intros [= <- <-]; congruence].
  intros H.
  apply initContextFromAsset_run in H
    as [(_ & -> & ->)|(s2 & _ & Hinit & ->)]; [fields; congruence|].
  apply whisper_init_from_asset_run in Hinit
    as [(-> & l & ->)|(asset & bytes & s1 & got & Hne & Hfresh & _ & -> & Hserve & ->)];
    [fields; congruence|].
  intros _. exists asset. split; [assumption|].
  apply serve_asset_open in Hserve as [Hd Ho]; [|assumption].
  fields. fields_in Hd. fields_in Ho. split.
  - apply Ho. rewrite lookup_insert_eq. eauto.
  - intros a Ha.
    rewrite <- (lookup_delete_ne (assets s2) asset a) by congruence.
    rewrite Hd, delete_insert_eq. now apply lookup_delete_ne.
Qed.

End AssetLoader.

(** ** The file path loader and freeContext *)

Section PathLoader.

Context (P : Platform) (E : Engine).

#[local] Abbreviation initContext :=
  (Java_com_negi_nativelib_WhisperLib_initContext P E).
#[local] Abbreviation freeContext :=
  Java_com_negi_nativelib_WhisperLib_freeContext.

(** X18.  initContext on a path string always returns. When the runtime
    hands over the characters of the path, the engine is called once
    with them, its handle is returned as it is, and the characters are
    given back; when it does not, the zero handle is returned and the
    engine is not called. Either way nothing else changes but the trace
    of JNI calls. *)
Theorem initContext_gives_back env clazz str s :
  ∃ s', initContext env clazz (Some str) s
        = Returns (if GetStringUTFChars_ok P then init_from_file E str else 0) s'
    ∧ utf_chars s' = utf_chars s
    ∧ engine_calls s'
      = engine_calls s
        ++ (if GetStringUTFChars_ok P
            then [whisper_init_from_file_with_params_call str] else [])
    ∧ jni_calls s'
      = jni_calls s
        ++ GetStringUTFChars_call str
           :: (if GetStringUTFChars_ok P
               then [ReleaseStringUTFChars_call str] else [])
    ∧ s' = with_engine_calls (λ _, engine_calls s')
             (with_jni_calls (λ _, jni_calls s') s).
Proof.
  unfold Java_com_negi_nativelib_WhisperLib_initContext,
    whisper_init_from_file_with_params, GetStringUTFChars,
    ReleaseStringUTFChars, called, jni, modify, ret, bind. fields.
  destruct (GetStringUTFChars_ok P); eexists; (split; [reflexivity|]); fields.
  - rewrite release_one_head, <- app_assoc.
    repeat split.
    apply State_eq; fields;
      rewrite ?release_one_head, <- ?app_assoc; reflexivity.
  - rewrite app_nil_r. repeat split.
Qed.

(** X19.  freeContext with the zero handle does nothing at all; with any
    other handle it makes one call of whisper_free with that handle and
    touches nothing else: no block of the native heap and no reference
    is released by it. *)
Theorem freeContext_frees_the_engine_context_only env clazz context_ptr s :
  freeContext env clazz context_ptr s
  = Returns tt (if context_ptr =? 0 then s
                else with_engine_calls
                       (λ l, l ++ [whisper_free_call context_ptr]) s).
Proof.
  unfold Java_com_negi_nativelib_WhisperLib_freeContext.
  destruct (context_ptr =? 0); reflexivity.
Qed.

End PathLoader.

(** ** More on fullTranscribe *)

Section MoreTranscribe.

Context (P : Platform) (E : Engine).

#[local] Abbreviation fullTranscribe :=
  (Java_com_negi_nativelib_WhisperLib_fullTranscribe P E).

Ltac run_transcribe :=
  unfold GetFloatArrayElements, GetArrayLength, GetStringUTFChars,
    ReleaseStringUTFChars, ReleaseFloatArrayElements, whisper_reset_timings,
    whisper_full, whisper_print_timings, called, jni, LOGW, LOGE, LOGI, LOG,
    modify, gets, ret, bind; simpl.

(** X20.  On a call that reaches the engine, the parameters handed to
    whisper_full are the engine's defaults but for what the file sets:
    context carrying is off and the four printing switches are off,
    whatever the defaults; translate is on exactly for JNI_TRUE; the
    thread count is the caller's when positive and 1 otherwise; the rest
    of the structure is the default's. When the engine is asked to
    detect the language, the language field is left at its default. *)
Theorem fullTranscribe_fixed_params (env clazz context_ptr : Z)
    (lang_str : option string) (num_threads translate_flag audio_data : Z)
    (xs : list jfloat) (s : State) :
  context_ptr ≠ 0 → audio_data ≠ 0 →
  float_arrays s !! audio_data = Some xs →
  GetFloatArrayElements_ok P = true →
  ∃ p s',
    fullTranscribe env clazz context_ptr lang_str num_threads translate_flag
      audio_data s
    = Returns tt s'
    ∧ whisper_full_call context_ptr p xs (Z.of_nat (length xs))
      ∈ engine_calls s'
    ∧ no_context p = true
    ∧ print_realtime p = false ∧ print_progress p = false
    ∧ print_timestamps p = false ∧ print_special p = false
    ∧ translate p = (translate_flag =? JNI_TRUE)
    ∧ n_threads p = Z.max 1 num_threads
    ∧ others p = others (default_params E)
    ∧ (detect_language p = true → language p = language (default_params E)).
Proof.
  intros Hc Ha Hxs Hpin. unfold Java_com_negi_nativelib_WhisperLib_fullTranscribe.
  apply Z.eqb_neq in Hc, Ha. rewrite Hc, Ha. simpl.
  run_transcribe. rewrite Hxs, Hpin. simpl. rewrite Hxs.
  assert (Hn : (if num_threads >? 0 then num_threads else 1)
               = Z.max 1 num_threads)
    by (destruct (Z.gtb_spec num_threads 0); lia).
  destruct lang_str as [l|]; simpl;
    [destruct (GetStringUTFChars_ok P) eqn:Hutf; simpl;
     [destruct (first_char_nonzero l && strcmp_ne l "auto")|]|].
  all: match goal with |- context [full_status ?e ?c ?p ?x ?n =? 0] =>
         exists p; destruct (full_status e c p x n =? 0) end; simpl; rewrite Hxs;
       eexists; (split; [reflexivity|]); simpl;
       (split; [rewrite !elem_of_app, !elem_of_cons; tauto|]);
       repeat split; auto; discriminate.
Qed.

(** X21.  On a call that reaches the engine, the timings are reset
    before the run; when the run succeeds the timings are printed and
    nothing is logged, and when it fails a warning is logged, the
    timings are not printed, and the call returns all the same. *)
Theorem fullTranscribe_reports_failure (env clazz context_ptr : Z)
    (lang_str : option string) (num_threads translate audio_data : Z)
    (xs : list jfloat) (s : State) :
  context_ptr ≠ 0 → audio_data ≠ 0 →
  float_arrays s !! audio_data = Some xs →
  GetFloatArrayElements_ok P = true →
  ∃ p s',
    fullTranscribe env clazz context_ptr lang_str num_threads translate audio_data s
    = Returns tt s'
    ∧ let n := Z.of_nat (length xs) in
      if full_status E context_ptr p xs n =? 0
      then engine_calls s'
           = engine_calls s ++ [whisper_reset_timings_call context_ptr;
                                whisper_full_call context_ptr p xs n;
                                whisper_print_timings_call context_ptr]
           ∧ log s' = log s
      else engine_calls s'
           = engine_calls s ++ [whisper_reset_timings_call context_ptr;
                                whisper_full_call context_ptr p xs n]
           ∧ log s' = log s ++ [(ANDROID_LOG_WARN, "whisper_full failed")].
Proof.
  intros Hc Ha Hxs Hpin. unfold Java_com_negi_nativelib_WhisperLib_fullTranscribe.
  apply Z.eqb_neq in Hc, Ha. rewrite Hc, Ha. simpl.
  run_transcribe. rewrite Hxs, Hpin. simpl. rewrite Hxs.
  destruct lang_str as [l|]; simpl;
    [destruct (GetStringUTFChars_ok P) eqn:Hutf; simpl|].
  all: match goal with |- context [full_status ?e ?c ?p ?x ?n =? 0] =>
         exists p; destruct (full_status e c p x n =? 0) end; simpl; rewrite Hxs;
       eexists; (split; [reflexivity|]); simpl;
       rewrite <- ?app_assoc; split; reflexivity.
Qed.

(** X22.  When the runtime gives no access to the samples the call
    returns at once: the engine is not called, nothing is logged, and
    the language string is never asked for. *)
Theorem fullTranscribe_without_samples (env clazz context_ptr : Z)
    (lang_str : option string) (num_threads translate audio_data : Z)
    (xs : list jfloat) (s : State) :
  context_ptr ≠ 0 → audio_data ≠ 0 →
  float_arrays s !! audio_data = Some xs →
  GetFloatArrayElements_ok P = false →
  fullTranscribe env clazz context_ptr lang_str num_threads translate audio_data s
  = Returns tt (with_jni_calls
                  (λ l, l ++ [GetFloatArrayElements_call audio_data]) s).
Proof.
  intros Hc Ha Hxs Hpin. unfold Java_com_negi_nativelib_WhisperLib_fullTranscribe.
  apply Z.eqb_neq in Hc, Ha. rewrite Hc, Ha. simpl.
  run_transcribe. now rewrite Hxs, Hpin.
Qed.

End MoreTranscribe.

(** ** More on the segment accessors *)

Section MoreSegments.

Context (E : Engine).

(** X23.  With a handle that is not zero the three numeric accessors
    return what the engine answers for that handle and index, asking it
    once; the index is handed over as it is, with no check against the
    number of segments. *)
Theorem segment_accessors_delegate (env clazz context_ptr index : Z) (s : State) :
  context_ptr ≠ 0 →
  Java_com_negi_nativelib_WhisperLib_getTextSegmentCount E env clazz context_ptr s
  = Returns (n_segments E context_ptr)
      (with_engine_calls
         (λ l, l ++ [whisper_full_n_segments_call context_ptr]) s)
  ∧ Java_com_negi_nativelib_WhisperLib_getTextSegmentT0 E env clazz context_ptr index s
    = Returns (segment_t0 E context_ptr index)
        (with_engine_calls
           (λ l, l ++ [whisper_full_get_segment_t0_call context_ptr index]) s)
  ∧ Java_com_negi_nativelib_WhisperLib_getTextSegmentT1 E env clazz context_ptr index s
    = Returns (segment_t1 E context_ptr index)
        (with_engine_calls
           (λ l, l ++ [whisper_full_get_segment_t1_call context_ptr index]) s).
Proof.
  intros H. apply Z.eqb_neq in H.
  unfold Java_com_negi_nativelib_WhisperLib_getTextSegmentCount,
    Java_com_negi_nativelib_WhisperLib_getTextSegmentT0,
    Java_com_negi_nativelib_WhisperLib_getTextSegmentT1.
  rewrite H. repeat split.
Qed.

End MoreSegments.
(** ** System information, benchmarks and JNI_OnLoad *)

Section System.

Context (P : Platform) (D : Diagnostics).

(** X24.  getSystemInfo, benchMemcpy and benchGgmlMulMat hand the
    engine's text to NewStringUTF, or the empty string when the engine
    gives none (never a null pointer), and return what NewStringUTF
    returns, untested: a reference to a string of that text when the
    runtime builds one, and the null reference, with an exception
    pending, when it does not. The thread count of the two benchmarks
    goes to the engine as it is, zero and negative counts included. Each
    makes that one JNI call and changes nothing else. *)
Theorem diagnostics_hand_on_engine_text (env clazz n_threads : Z) (s : State) :
  (∃ text,
     Java_com_negi_nativelib_WhisperLib_getSystemInfo P D env clazz s
     = (if NewStringUTF_ok P
        then Returns (Some text)
               (with_jni_calls (λ l, l ++ [NewStringUTF_call text]) s)
        else Returns None
               (with_exception (λ _, true)
                  (with_jni_calls (λ l, l ++ [NewStringUTF_call text]) s)))
     ∧ (print_system_info D = None → text = "")
     ∧ (∀ t, print_system_info D = Some t → text = t))
  ∧ (∃ text,
       Java_com_negi_nativelib_WhisperLib_benchMemcpy P D env clazz n_threads s
       = (if NewStringUTF_ok P
          then Returns (Some text)
                 (with_jni_calls (λ l, l ++ [NewStringUTF_call text]) s)
          else Returns None
                 (with_exception (λ _, true)
                    (with_jni_calls (λ l, l ++ [NewStringUTF_call text]) s)))
       ∧ (bench_memcpy_str D n_threads = None → text = "")
       ∧ (∀ t, bench_memcpy_str D n_threads = Some t → text = t))
  ∧ (∃ text,
       Java_com_negi_nativelib_WhisperLib_benchGgmlMulMat P D env clazz
         n_threads s
       = (if NewStringUTF_ok P
          then Returns (Some text)
                 (with_jni_calls (λ l, l ++ [NewStringUTF_call text]) s)
          else Returns None
                 (with_exception (λ _, true)
                    (with_jni_calls (λ l, l ++ [NewStringUTF_call text]) s)))
       ∧ (bench_ggml_mul_mat_str D n_threads = None → text = "")
       ∧ (∀ t, bench_ggml_mul_mat_str D n_threads = Some t → text = t)).
Proof.
  unfold Java_com_negi_nativelib_WhisperLib_getSystemInfo,
    Java_com_negi_nativelib_WhisperLib_benchMemcpy,
    Java_com_negi_nativelib_WhisperLib_benchGgmlMulMat,
    NewStringUTF, jni, modify, bind.
  split; [|split].
  - destruct (print_system_info D) as [t|]; cbn zeta; cbn [or_empty]; eexists;
      (split; [destruct (NewStringUTF_ok P); reflexivity
              |split; intros; congruence]).
  - destruct (bench_memcpy_str D n_threads) as [t|]; cbn zeta; cbn [or_empty];
      eexists;
      (split; [destruct (NewStringUTF_ok P); reflexivity
              |split; intros; congruence]).
  - destruct (bench_ggml_mul_mat_str D n_threads) as [t|]; cbn zeta;
      cbn [or_empty]; eexists;
      (split; [destruct (NewStringUTF_ok P); reflexivity
              |split; intros; congruence]).
Qed.

End System.

(** ** The further theorems at work *)

Section MoreRuns.

Import Scenario Cases.

#[local] Abbreviation initContextFromInputStream :=
  Java_com_negi_nativelib_WhisperLib_initContextFromInputStream.
#[local] Abbreviation initContextFromAsset :=
  Java_com_negi_nativelib_WhisperLib_initContextFromAsset.
#[local] Abbreviation fullTranscribe :=
  Java_com_negi_nativelib_WhisperLib_fullTranscribe.

(** Runs [run] and goes on with what it returned, [v]. *)
Ltac run_returns run v a s' Hrun :=
  let Hv := fresh "Hv" in
  assert (Hv : returned run = Some v) by (vm_compute; reflexivity);
  destruct run as [a s'|] eqn:Hrun; cbn [returned] in Hv;
  [injection Hv as Hv; cbn [leaves]|discriminate Hv].

Lemma get_env_from_jvm_attaches_once_witness :
  leaves (get_env_from_jvm platform 9 detached) (λ env s',
    get_env_from_jvm platform 9 s'
    = Returns env (with_jni_calls (λ l, l ++ [GetEnv_call]) s')).
Proof.
  run_returns (get_env_from_jvm platform 9 detached) 78 env s' Hrun.
  apply (get_env_from_jvm_attaches_once platform 9 9 detached env s' Hrun);
    [rewrite Hv|]; discriminate.
Defined.

Lemma is_read_without_env_witness :
  ∃ s', is_read platform_without_attach 1 (replicate 16 Byte.x00) 16
          opened_detached
        = Returns (0, replicate 16 Byte.x00) s'
    ∧ heap s' = heap opened_detached ∧ stream s' = stream opened_detached
    ∧ reads_requested (jni_calls s') = reads_requested (jni_calls opened_detached)
    ∧ is_eof 1 s' = Returns (negb (eof opened_context =? 0)) s'.
Proof.
  apply (is_read_without_env platform_without_attach 1 opened_context);
    [lia|reflexivity|discriminate..|reflexivity|reflexivity].
Defined.

Lemma is_read_zero_marks_exhausted_witness :
  leaves (is_read platform 1 (replicate 16 Byte.x00) 16 opened) (λ r s',
    0 ≤ fst r
    ∧ (fst r = 0 →
       snd r = replicate 16 Byte.x00
       ∧ heap s' = <[1 := set_eof 1 opened_context]> (heap opened)
       ∧ is_eof 1 s' = Returns true s')
    ∧ (0 < fst r →
       heap s' = heap opened
       ∧ is_eof 1 s' = Returns (negb (eof opened_context =? 0)) s')).
Proof.
  run_returns (is_read platform 1 (replicate 16 Byte.x00) 16 opened)
    (3, [Byte.x01; Byte.x02; Byte.x03] ++ replicate 13 Byte.x00) r s' Hrun.
  destruct r as [n out]. cbn [fst snd].
  apply (is_read_zero_marks_exhausted platform 1 opened_context
           (replicate 16 Byte.x00) 16 opened n out s');
    [lia|reflexivity|discriminate..|left; discriminate|exact Hrun].
Defined.

Lemma is_read_keeps_resources_witness :
  leaves (is_read platform 1 (replicate 16 Byte.x00) 16 opened) (λ _ s',
    globals s' = globals opened ∧ locals s' = locals opened
    ∧ pinned s' = pinned opened ∧ utf_chars s' = utf_chars opened
    ∧ assets s' = assets opened ∧ float_arrays s' = float_arrays opened
    ∧ engine_calls s' = engine_calls opened
    ∧ (∀ a, a ≠ 1 → heap s' !! a = heap opened !! a)
    ∧ (∀ c, heap opened !! 1 = Some c →
         ∃ e, heap s' !! 1 = Some (set_eof e c))).
Proof.
  run_returns (is_read platform 1 (replicate 16 Byte.x00) 16 opened)
    (3, [Byte.x01; Byte.x02; Byte.x03] ++ replicate 13 Byte.x00) r s' Hrun.
  exact (is_read_keeps_resources platform 1 _ 16 opened r s' Hrun).
Defined.


Lemma is_close_releases_witness :
  ∃ s', is_close platform 1 opened = Returns tt s'
    ∧ heap s' = delete 1 (heap opened)
    ∧ (∀ r, globals s' !! r
            = if bool_decide (r ∈ held opened_context) then None
              else globals opened !! r)
    ∧ deleted (jni_calls s') = deleted (jni_calls opened) ++ held opened_context
    ∧ locals s' = locals opened
    ∧ engine_calls s' = engine_calls opened.
Proof.
  apply (is_close_releases platform 1 opened_context opened).
  - lia.
  - reflexivity.
  - discriminate.
  - discriminate.
  - intros r Hr. change (held opened_context) with [2; 3] in Hr.
    apply elem_of_cons in Hr as [->|Hr];
      [|apply list_elem_of_singleton in Hr as ->]; eexists; reflexivity.
  - change (held opened_context) with [2; 3].
    apply NoDup_cons. split; [|apply NoDup_singleton].
    intros Hin. apply list_elem_of_singleton in Hin. discriminate.
Defined.

Lemma stream_loader_dead_after_close_witness :
  leaves (is_close platform 1 opened) (λ _ s',
    is_read platform 1 (replicate 16 Byte.x00) 16 s' = Crashes UseAfterFree
    ∧ is_eof 1 s' = Crashes UseAfterFree
    ∧ is_close platform 1 s' = Crashes UseAfterFree).
Proof.
  run_returns (is_close platform 1 opened) tt u s' Hrun. destruct u.
  apply (stream_loader_dead_after_close platform 1 opened s'); [lia|exact Hrun].
Defined.

Lemma is_close_without_env_witness :
  ∃ s', is_close platform_without_attach 1 opened_detached = Returns tt s'
    ∧ heap s' = delete 1 (heap opened_detached)
    ∧ globals s' = globals opened_detached
    ∧ deleted (jni_calls s') = deleted (jni_calls opened_detached).
Proof.
  apply (is_close_without_env platform_without_attach 1 opened_context);
    [lia|reflexivity|discriminate|reflexivity|reflexivity].
Defined.

Lemma initContextFromInputStream_zero_releases_witness :
  leaves (initContextFromInputStream platform_without_buffer engine 77 0 5 start)
    (λ h s', h = 0 ∧ heap s' = heap start ∧ globals s' = globals start
             ∧ locals s' = locals start).
Proof.
  run_returns
    (initContextFromInputStream platform_without_buffer engine 77 0 5 start)
    0 h s' Hrun.
  split; [exact Hv|]. rewrite Hv in Hrun.
  apply (initContextFromInputStream_zero_releases platform_without_buffer
           engine 77 0 5 start s'); [discriminate|exact Hrun].
Defined.


Lemma initContextFromInputStream_success_releases_witness :
  leaves (initContextFromInputStream platform engine_with_model 77 0 5 start)
    (λ h s', h = 500 ∧ heap s' = heap start ∧ globals s' = globals start
             ∧ locals s' = locals start).
Proof.
  run_returns
    (initContextFromInputStream platform engine_with_model 77 0 5 start)
    500 h s' Hrun.
  split; [exact Hv|].
  apply (initContextFromInputStream_success_releases platform engine_with_model
           77 0 5 start h s' [ask_read 4; ask_eof]);
    [discriminate|reflexivity| |exact Hrun|rewrite Hv; discriminate].
  intros Hin. apply elem_of_cons in Hin as [Hin|Hin]; [discriminate|].
  apply list_elem_of_singleton in Hin. discriminate.
Defined.

Lemma initContextFromInputStream_calls_engine_once_witness :
  leaves (initContextFromInputStream platform engine_with_model 77 0 5 start)
    (λ h s',
       locals s' = locals start ∧ pinned s' = pinned start
       ∧ utf_chars s' = utf_chars start
       ∧ ((h = 0 ∧ engine_calls s' = engine_calls start)
          ∨ ∃ inp, inp ≠ 0 ∧ heap start !! inp = None
                   ∧ engine_calls s'
                     = engine_calls start
                       ++ [whisper_init_with_params_call inp])).
Proof.
  run_returns
    (initContextFromInputStream platform engine_with_model 77 0 5 start)
    500 h s' Hrun.
  apply (initContextFromInputStream_calls_engine_once platform engine_with_model
           77 0 5 start h s'); [discriminate|exact Hrun].
Defined.


Lemma initContextFromAsset_gives_back_witness :
  leaves (initContextFromAsset platform engine 77 0 1
            (Some "models/ggml-tiny.bin") start)
    (λ h s',
       utf_chars s' = utf_chars start ∧ pinned s' = pinned start
       ∧ heap s' = heap start ∧ globals s' = globals start
       ∧ locals s' = locals start
       ∧ ((h = 0 ∧ engine_calls s' = engine_calls start)
          ∨ ∃ asset, asset ≠ 0 ∧ assets start !! asset = None
                     ∧ engine_calls s'
                       = engine_calls start
                         ++ [whisper_init_with_params_call asset])).
Proof.
  run_returns
    (initContextFromAsset platform engine 77 0 1
       (Some "models/ggml-tiny.bin") start) 0 h s' Hrun.
  exact (initContextFromAsset_gives_back platform engine 77 0 1
           (Some "models/ggml-tiny.bin") start h s' Hrun).
Defined.

Lemma initContextFromAsset_asset_closed_witness :
  leaves (initContextFromAsset platform engine 77 0 1
            (Some "models/ggml-tiny.bin") start)
    (λ _ s', assets s' = assets start).
Proof.
  run_returns
    (initContextFromAsset platform engine 77 0 1
       (Some "models/ggml-tiny.bin") start) 0 h s' Hrun.
  apply (initContextFromAsset_asset_closed platform engine 77 0 1
           (Some "models/ggml-tiny.bin") start h s' [ask_read 4]);
    [reflexivity| |exact Hrun].
  intros Hin. apply list_elem_of_singleton in Hin. discriminate.
Defined.

Lemma initContextFromAsset_leaves_asset_open_witness :
  leaves (initContextFromAsset platform engine_leaving_open 77 0 1
            (Some "models/ggml-tiny.bin") start)
    (λ _ s', ∃ asset, assets start !! asset = None
                      ∧ is_Some (assets s' !! asset)
                      ∧ ∀ a, a ≠ asset → assets s' !! a = assets start !! a).
Proof.
  assert (Hcalls :
    leaves (initContextFromAsset platform engine_leaving_open 77 0 1
              (Some "models/ggml-tiny.bin") start)
      (λ _ s', engine_calls s' = [whisper_init_with_params_call 9]))
    by (vm_compute; reflexivity).
  run_returns
    (initContextFromAsset platform engine_leaving_open 77 0 1
       (Some "models/ggml-tiny.bin") start) 0 h s' Hrun.
  cbn [leaves] in Hcalls.
  apply (initContextFromAsset_leaves_asset_open platform engine_leaving_open
           77 0 1 (Some "models/ggml-tiny.bin") start h s');
    [|exact Hrun|rewrite Hcalls; discriminate].
  intros Hin. apply list_elem_of_singleton in Hin. discriminate.
Defined.

Lemma fullTranscribe_fixed_params_witness :
  ∃ p s',
    fullTranscribe platform engine 77 0 5 (Some "fr") 0 1 8 start = Returns tt s'
    ∧ whisper_full_call 5 p [1; 2; 3] (Z.of_nat (length [1; 2; 3]))
      ∈ engine_calls s'
    ∧ no_context p = true
    ∧ print_realtime p = false ∧ print_progress p = false
    ∧ print_timestamps p = false ∧ print_special p = false
    ∧ translate p = (1 =? 1)
    ∧ n_threads p = Z.max 1 0
    ∧ others p = others (default_params engine)
    ∧ (detect_language p = true → language p = language (default_params engine)).
Proof.
  apply (fullTranscribe_fixed_params platform engine 77 0 5 (Some "fr") 0 1 8
           [1; 2; 3] start); [lia | lia | reflexivity | reflexivity].
Defined.

Lemma fullTranscribe_reports_failure_witness :
  ∃ p s',
    fullTranscribe platform engine_failing 77 0 5 None 2 0 8 start = Returns tt s'
    ∧ let n := Z.of_nat (length [1; 2; 3]) in
      if full_status engine_failing 5 p [1; 2; 3] n =? 0
      then engine_calls s'
           = engine_calls start ++ [whisper_reset_timings_call 5;
                                    whisper_full_call 5 p [1; 2; 3] n;
                                    whisper_print_timings_call 5]
           ∧ log s' = log start
      else engine_calls s'
           = engine_calls start ++ [whisper_reset_timings_call 5;
                                    whisper_full_call 5 p [1; 2; 3] n]
           ∧ log s' = log start ++ [(ANDROID_LOG_WARN, "whisper_full failed")].
Proof.
  apply (fullTranscribe_reports_failure platform engine_failing 77 0 5 None 2 0 8
           [1; 2; 3] start); [lia | lia | reflexivity | reflexivity].
Defined.

Lemma fullTranscribe_without_samples_witness :
  fullTranscribe platform_without_samples engine 77 0 5 (Some "fr") 2 0 8 start
  = Returns tt (with_jni_calls (λ l, l ++ [GetFloatArrayElements_call 8]) start).
Proof.
  apply (fullTranscribe_without_samples platform_without_samples engine 77 0 5
           (Some "fr") 2 0 8 [1; 2; 3] start);
    [lia | lia | reflexivity | reflexivity].
Defined.

Lemma segment_accessors_delegate_witness :
  Java_com_negi_nativelib_WhisperLib_getTextSegmentCount engine_with_model 77 0 500 start
  = Returns 2 (with_engine_calls
                 (λ l, l ++ [whisper_full_n_segments_call 500]) start)
  ∧ Java_com_negi_nativelib_WhisperLib_getTextSegmentT0 engine_with_model 77 0 500 (-1) start
    = Returns (-100)
        (with_engine_calls
           (λ l, l ++ [whisper_full_get_segment_t0_call 500 (-1)]) start)
  ∧ Java_com_negi_nativelib_WhisperLib_getTextSegmentT1 engine_with_model 77 0 500 (-1) start
    = Returns 0
        (with_engine_calls
           (λ l, l ++ [whisper_full_get_segment_t1_call 500 (-1)]) start).
Proof.
  apply (segment_accessors_delegate engine_with_model 77 0 500 (-1) start). lia.
Defined.

End MoreRuns.
